(** * DPC Sentinel X: scan orchestration and detection pipeline

    A shallow embedding of the scanning and detection code of the repository
    (core/scanner/quick_scan.py, deep_scan.py, custom_scan.py and
    core/detection/advanced_detection.py, ai_detection.py,
    signature_detection.py), followed by the properties proved about it.

    Conventions of the embedding:
    - Python ints are [Z]; Python floats are binary64 values ([PrimFloat]).
      Of [_calculate_entropy] only the integer part, the byte histogram, is
      embedded: numpy's float64 division, [log2] and [sum] are not;
    - Python dicts are finite maps from string keys to Python values;
    - a function that mutates the shared [results] list and [stats] dict, or
      that can raise, lives in the state-and-exception monad [M]: what was
      done to the shared objects before an exception stays done;
    - the file system is a tree of [node]s; a function that receives a path
      also receives the node the file system holds at that path, and every
      access it makes is appended to a log;
    - the digests of a file are attributes of the file ([hashlib] is not
      re-implemented); [os.path] is the POSIX one; a Python str is
      represented by its UTF-8 encoding;
    - [str.lower] is computed on text that is pure ASCII; on any other text
      it is whatever the interpreter's Unicode tables say, a function the
      embedding receives from outside ([unicode_lower]);
    - a Ctrl-C is delivered, as [KeyboardInterrupt], at the start of a loop
      iteration or of the [try] block of [run_custom_scan], or while an
      embedded [print] writes;
    - [logger] calls change nothing and are left out.  The [print] calls of
      custom_scan.py and signature_detection.py are embedded: each asks the
      console, which may answer with an exception (a closed pipe, text that
      standard output cannot encode, a Ctrl-C).  The [print] calls of
      quick_scan.py and deep_scan.py are left out: what is proved about
      these two describes runs whose prints succeed. *)

From Stdlib Require Import ZArith List String Ascii Bool Lia.
From Stdlib Require Import PrimFloat.
From Stdlib.Strings Require Byte.
From stdpp Require Import gmap strings list fin_maps.

#[local] Set Warnings "-inexact-float,-register-all".
#[local] Open Scope Z_scope.

(* ===================================================================== *)
(** * Part I: the embedding                                              *)
(* ===================================================================== *)

(** ** Python strings and [os.path] (POSIX flavour) *)

Module PyStr.

(** [str.lower] on text that is pure ASCII: A to Z become a to z. *)
Definition lower_ascii (c : ascii) : ascii :=
  let n := nat_of_ascii c in
  if ((65 <=? n) && (n <=? 90))%nat then ascii_of_nat (n + 32) else c.

Fixpoint ascii_lower (s : string) : string :=
  match s with
  | EmptyString => EmptyString
  | String c r => String (lower_ascii c) (ascii_lower r)
  end.

Fixpoint is_ascii (s : string) : bool :=
  match s with
  | EmptyString => true
  | String c r => (nat_of_ascii c <? 128)%nat && is_ascii r
  end.

(** [s.lower()].  On text with other characters Python follows the Unicode
    case mappings (which depend on the context of a character too):
    [unicode_lower] stands for them. *)
Definition lower (unicode_lower : string -> string) (s : string) : string :=
  if is_ascii s then ascii_lower s else unicode_lower s.

Definition startswith (p s : string) : bool := String.prefix p s.

Definition endswith (suffix s : string) : bool :=
  String.prefix (String.rev suffix) (String.rev s).

(** [needle in hay] for two strings. *)
Fixpoint contains (needle hay : string) : bool :=
  if String.prefix needle hay then true
  else match hay with
       | EmptyString => false
       | String _ r => contains needle r
       end.

(** [x in l] for a list of strings. *)
Definition in_list (x : string) (l : list string) : bool :=
  existsb (String.eqb x) l.

(** [sep.join(l)]. *)
Fixpoint join (sep : string) (l : list string) : string :=
  match l with
  | [] => EmptyString
  | [x] => x
  | x :: r => (x +:+ sep +:+ join sep r)%string
  end.

End PyStr.

Module OsPath.
Import PyStr.

Definition sep : string := "/".

(** [os.path.basename]: what follows the last separator. *)
Fixpoint basename (p : string) : string :=
  match p with
  | EmptyString => EmptyString
  | String _ r => if contains sep p then basename r else p
  end.

(** [os.path.join] of two components. *)
Definition join (a b : string) : string :=
  if startswith sep b then b
  else if (String.eqb a "" || endswith sep a)%bool then (a +:+ b)%string
  else (a +:+ sep +:+ b)%string.

(** Splits [s] at its last dot: [Some (before, from the dot on)]. *)
Fixpoint rsplit_dot (s : string) : option (string * string) :=
  match s with
  | EmptyString => None
  | String c r =>
      match rsplit_dot r with
      | Some (a, b) => Some (String c a, b)
      | None => if Ascii.eqb c "." then Some (EmptyString, s) else None
      end
  end.

Fixpoint all_dots (s : string) : bool :=
  match s with
  | EmptyString => true
  | String c r => Ascii.eqb c "." && all_dots r
  end.

Fixpoint all_slashes (s : string) : bool :=
  match s with
  | EmptyString => true
  | String c r => Ascii.eqb c "/" && all_slashes r
  end.

(** The extension half of [os.path.splitext]: the last dot of the base
    name starts the extension, unless only dots precede it. *)
Definition splitext_ext (p : string) : string :=
  match rsplit_dot (basename p) with
  | Some (stem, ext) => if all_dots stem then EmptyString else ext
  | None => EmptyString
  end.

End OsPath.

(** ** core/detection/advanced_detection.py *)

Module AdvancedDetection.

Inductive ThreatCategory :=
| RANSOMWARE | TROJAN | SPYWARE | ROOTKIT
| CRYPTOMINER | BACKDOOR | WORM | ADWARE.

Definition category_value (c : ThreatCategory) : string :=
  match c with
  | RANSOMWARE => "ransomware" | TROJAN => "trojan"
  | SPYWARE => "spyware" | ROOTKIT => "rootkit"
  | CRYPTOMINER => "cryptominer" | BACKDOOR => "backdoor"
  | WORM => "worm" | ADWARE => "adware"
  end.

Record BehaviorPattern := {
  name : string;
  category : ThreatCategory;
  indicators : list string;
  severity : Z;
  description : string
}.

(** The dict built for each matched pattern. *)
Record pattern_match := {
  m_pattern : string;
  m_category : string;
  m_severity : Z;
  m_description : string
}.

Definition behavior_patterns : list BehaviorPattern := [
  {| name := "Ransomware_File_Encryption"; category := RANSOMWARE;
     indicators := ["rapid_file_encryption"; "file_extension_change";
                    "ransom_note_creation"];
     severity := 9;
     description := "File encryption behavior typical of ransomware" |};
  {| name := "Trojan_Persistence"; category := TROJAN;
     indicators := ["registry_run_key_modification";
                    "startup_folder_addition"; "scheduled_task_creation"];
     severity := 7;
     description := "Persistence mechanisms used by Trojans" |};
  {| name := "Spyware_Data_Collection"; category := SPYWARE;
     indicators := ["screenshot_capture"; "keylogging";
                    "browser_history_access"];
     severity := 8;
     description := "Data collection activities typical of spyware" |};
  {| name := "Cryptominer_High_CPU"; category := CRYPTOMINER;
     indicators := ["sustained_high_cpu_usage";
                    "connection_to_mining_pools";
                    "mining_software_detection"];
     severity := 9;
     description :=
       "High CPU usage and network activity associated with cryptominers" |};
  {| name := "Rootkit_System_Hooking"; category := ROOTKIT;
     indicators := ["system_call_hooking"; "driver_manipulation";
                    "hidden_process"];
     severity := 8;
     description :=
       "System-level manipulation indicating rootkit presence" |};
  {| name := "Backdoor_Remote_Access"; category := BACKDOOR;
     indicators := ["remote_connection"; "unusual_port_listening";
                    "hidden_communication"];
     severity := 9;
     description :=
       "Remote access and control behavior typical of backdoors" |};
  {| name := "Worm_Self_Replication"; category := WORM;
     indicators := ["self_copying"; "network_propagation";
                    "system_resource_consumption"];
     severity := 8;
     description := "Self-replicating and spreading behavior of worms" |};
  {| name := "Adware_Unwanted_Ads"; category := ADWARE;
     indicators := ["browser_redirection"; "unwanted_popups";
                    "browser_setting_modification"];
     severity := 6;
     description :=
       "Displaying unwanted advertisements and modifying browser settings" |}
].

(** The monitoring hook is a placeholder in the source: it observes
    nothing. *)
Definition _monitor_file_activities (file_path : string) : list string := [].

Definition _match_behavior_patterns (behaviors : list string)
  : list pattern_match :=
  flat_map
    (fun p =>
       if existsb (fun i => PyStr.in_list i behaviors) (indicators p)
       then [ {| m_pattern := name p;
                 m_category := category_value (category p);
                 m_severity := severity p;
                 m_description := description p |} ]
       else [])
    behavior_patterns.

(** Python's [sum]: starts from 0 and adds from the left. *)
Definition py_sum (l : list Z) : Z := fold_left Z.add l 0.

Definition _calculate_risk_score (matched_patterns : list pattern_match) : Z :=
  match matched_patterns with
  | [] => 0
  | _ =>
      let total_severity := py_sum (map m_severity matched_patterns) in
      Z.min 100 (total_severity * 10)
  end.

Definition analyze_file_behavior (file_path : string) : list pattern_match * Z :=
  let file_behaviors := _monitor_file_activities file_path in
  let matched_patterns := _match_behavior_patterns file_behaviors in
  (matched_patterns, _calculate_risk_score matched_patterns).

End AdvancedDetection.

(** ** core/detection/ai_detection.py *)

Module AIDetection.
Import PyStr.

(** [self.detection_threshold]. *)
Definition detection_threshold : float := 0.75%float.

(** *** [_calculate_entropy]: the byte histogram *)

(** A cell of [np.zeros(256, dtype=int)]: a 64-bit signed integer. *)
Definition wrap64 (z : Z) : Z := (z + 2 ^ 63) mod 2 ^ 64 - 2 ^ 63.

Definition np_zeros (n : nat) : list Z := replicate n 0.

(** [a[i] += 1]; the index is a byte value, always inside the array. *)
Definition np_incr (i : nat) (a : list Z) : list Z :=
  match a !! i with
  | Some c => <[i := wrap64 (c + 1)]> a
  | None => a
  end.

(** [byte_counts] after the loop over the bytes of the file.  What follows
    in the source, [byte_counts / len(data)], [np.log2] and [np.sum], is
    float64 arithmetic of numpy and is not embedded. *)
Definition byte_counts (data : list Byte.byte) : list Z :=
  fold_left (fun counts byte => np_incr (Byte.to_nat byte) counts)
            data (np_zeros 256).

(** *** [_analyze_features] *)

(** The [features] dict; [_extract_features] sets all four keys, and
    [_analyze_features] reads them with [.get] and a default.  The entropy
    it holds is a binary64 number. *)
Record features := {
  f_file_size : option Z;
  f_entropy : option float;
  f_extension : option string;
  f_sha256 : option string
}.

Record analysis := {
  status : string;
  score : float;
  classification : string;
  detection_type : list string;
  timestamp : Z;
  sha256 : string;
  file_size : Z
}.

Definition suspicious_names : list string :=
  ["trojan"; "hack"; "crack"; "keygen"; "patch"; "warez"; "virus"].

(** Python's [min(a, b)]: the second argument only when it is smaller. *)
Definition py_min (a b : float) : float :=
  if (b <? a)%float then b else a.

(** The accumulation of [threat_score] and [detection_type]: the three
    checks in source order; the name loop stops at its first hit. *)
Definition accumulate (unicode_lower : string -> string) (feats : features)
           (file_path : string) : float * list string :=
  let threat_score := 0.0%float in
  let detection_type : list string := [] in
  let '(threat_score, detection_type) :=
    if (7.0 <? default 0.0 (f_entropy feats))%float
    then ((threat_score + 0.3)%float,
          detection_type ++ ["High entropy (possible packing)"%string])
    else (threat_score, detection_type) in
  let '(threat_score, detection_type) :=
    if (default 0 (f_file_size feats) <? 1024)
       && String.eqb (default ""%string (f_extension feats)) ".exe"
    then ((threat_score + 0.4)%float,
          detection_type ++ ["Unusually small executable"%string])
    else (threat_score, detection_type) in
  let filename := lower unicode_lower (OsPath.basename file_path) in
  match List.find (fun name => contains name filename) suspicious_names with
  | Some name =>
      ((threat_score + 0.5)%float,
       detection_type ++ [("Suspicious filename pattern: " +:+ name)%string])
  | None => (threat_score, detection_type)
  end.

Definition classify (threat_score : float) : string :=
  if (detection_threshold <=? threat_score)%float then "malicious"
  else if (0.4 <=? threat_score)%float then "suspicious"
  else "benign".

(** [now] is the reading of [datetime.now()]. *)
Definition _analyze_features (unicode_lower : string -> string) (now : Z)
           (feats : features) (file_path : string) : analysis :=
  let '(threat_score, detection_type) :=
    accumulate unicode_lower feats file_path in
  let classification := classify threat_score in
  {| status := "success";
     score := py_min threat_score 1.0%float;
     classification := classification;
     detection_type :=
       match detection_type with
       | [] => ["No specific threats detected"%string]
       | _ => detection_type
       end;
     timestamp := now;
     sha256 := default ""%string (f_sha256 feats);
     file_size := default 0 (f_file_size feats) |}.

End AIDetection.

(** ** The Python run time: values, exceptions, shared state *)

Module Py.

(** The exceptions the scanners meet.  [KeyboardInterrupt] derives from
    [BaseException] only, the others from [Exception];
    [UnicodeEncodeError] is what [print] raises on text that standard
    output cannot encode. *)
Inductive exn :=
| KeyboardInterrupt | OSError | NameError | KeyError | TypeError
| UnicodeEncodeError.

Definition is_Exception (e : exn) : bool :=
  match e with
  | KeyboardInterrupt => false
  | _ => true
  end.

(** Values stored in the [stats] and result dicts.  [VTime] holds a clock
    reading or a difference of two readings. *)
Inductive value :=
| VInt (z : Z)
| VStr (s : string)
| VTime (t : Z)
| VNone.

Abbreviation dict := (gmap string value).

(** What the scanner did to the file system and asked standard output to
    write, in order.  The line of a [Printed] is the format string of the
    source, its placeholders left as they are. *)
Inductive event :=
| Listed (path : string)      (* os.scandir(path) *)
| Examined (path : string)    (* a directory entry's type was queried *)
| Sized (path : string)       (* os.path.getsize(path) *)
| Opened (path : string)      (* open(path, 'rb') *)
| Printed (line : string).    (* print(line) *)

(** The mutable objects a scan shares between its functions, and its
    environment: the clock, a pending Ctrl-C ([sigint = Some k]: it is
    delivered at the [k]-th interruption point from now), and the log of
    file-system accesses. *)
Record state := {
  results : list dict;
  stats : dict;
  clock : Z;
  sigint : option nat;
  trace : list event
}.

Inductive result (A : Type) :=
| Ok (a : A)
| Raise (e : exn).
Arguments Ok {A} a.
Arguments Raise {A} e.

Definition M (A : Type) : Type := state -> result A * state.

Definition ret {A} (a : A) : M A := fun s => (Ok a, s).

Definition bind {A B} (m : M A) (k : A -> M B) : M B :=
  fun s =>
    match m s with
    | (Ok a, s') => k a s'
    | (Raise e, s') => (Raise e, s')
    end.

Definition raise {A} (e : exn) : M A := fun s => (Raise e, s).

(** [try: body except ...]: [handler e] is the first clause that matches
    [e], or [None] when none does and [e] propagates.  What the body did
    to the shared objects before raising stays done. *)
Definition try_except {A} (body : M A) (handler : exn -> option (M A)) : M A :=
  fun s =>
    match body s with
    | (Ok a, s') => (Ok a, s')
    | (Raise e, s') =>
        match handler e with
        | Some h => h s'
        | None => (Raise e, s')
        end
    end.

(** [except Exception as e: h]. *)
Definition except_Exception {A} (h : M A) : exn -> option (M A) :=
  fun e => if is_Exception e then Some h else None.

(** [except KeyboardInterrupt: h1] followed by [except Exception: h2]. *)
Definition except_Interrupt_then_Exception {A} (h1 h2 : M A)
  : exn -> option (M A) :=
  fun e =>
    match e with
    | KeyboardInterrupt => Some h1
    | _ => Some h2
    end.

Definition set_results (f : list dict -> list dict) (s : state) : state :=
  {| results := f (results s); stats := stats s; clock := clock s;
     sigint := sigint s; trace := trace s |}.

Definition set_stats (f : dict -> dict) (s : state) : state :=
  {| results := results s; stats := f (stats s); clock := clock s;
     sigint := sigint s; trace := trace s |}.

Definition set_clock (f : Z -> Z) (s : state) : state :=
  {| results := results s; stats := stats s; clock := f (clock s);
     sigint := sigint s; trace := trace s |}.

Definition set_sigint (v : option nat) (s : state) : state :=
  {| results := results s; stats := stats s; clock := clock s;
     sigint := v; trace := trace s |}.

Definition set_trace (f : list event -> list event) (s : state) : state :=
  {| results := results s; stats := stats s; clock := clock s;
     sigint := sigint s; trace := f (trace s) |}.

(** [time.time()] / [datetime.now()]: reads the clock, which moves on. *)
Definition now : M Z :=
  fun s => (Ok (clock s), set_clock (fun t => t + 1) s).

(** A point at which a pending Ctrl-C is turned into
    [KeyboardInterrupt]: the embedding has one at the start of every loop
    iteration of a scan. *)
Definition checkpoint : M unit :=
  fun s =>
    match sigint s with
    | Some O => (Raise KeyboardInterrupt, set_sigint None s)
    | Some (S k) => (Ok tt, set_sigint (Some k) s)
    | None => (Ok tt, s)
    end.

Definition log (e : event) : M unit :=
  fun s => (Ok tt, set_trace (fun t => t ++ [e]) s).

(** [stats[key] += 1]. *)
Definition stats_incr (key : string) : M unit :=
  fun s =>
    match stats s !! key with
    | Some (VInt n) => (Ok tt, set_stats (insert key (VInt (n + 1))) s)
    | Some _ => (Raise TypeError, s)
    | None => (Raise KeyError, s)
    end.

(** [stats[key]], read. *)
Definition stats_get (key : string) : M value :=
  fun s =>
    match stats s !! key with
    | Some v => (Ok v, s)
    | None => (Raise KeyError, s)
    end.

(** [d[key]] for a dict [d]. *)
Definition item (d : dict) (key : string) : M value :=
  match d !! key with
  | Some v => ret v
  | None => raise KeyError
  end.

(** [v > 0]: numbers compare, anything else raises [TypeError]. *)
Definition gt_zero (v : value) : M bool :=
  match v with
  | VInt z => ret (0 <? z)
  | VTime t => ret (0 <? t)
  | _ => raise TypeError
  end.

(** [v % 100 == 0] for an int. *)
Definition multiple_of_100 (v : value) : M bool :=
  match v with
  | VInt z => ret (z mod 100 =? 0)
  | _ => raise TypeError
  end.

(** [stats[key] = v]. *)
Definition stats_set (key : string) (v : value) : M unit :=
  fun s => (Ok tt, set_stats (insert key v) s).

(** [results.append(d)]. *)
Definition results_append (d : dict) : M unit :=
  fun s => (Ok tt, set_results (fun l => l ++ [d]) s).

(** [scan_results = []; scan_stats = {...}]: fresh objects. *)
Definition fresh (d : dict) : M unit :=
  fun s => (Ok tt, set_stats (fun _ => d) (set_results (fun _ => []) s)).

(** [results = []]: a fresh list, and reading it back. *)
Definition new_results : M unit :=
  fun s => (Ok tt, set_results (fun _ => []) s).

Definition get_results : M (list dict) :=
  fun s => (Ok (results s), s).

(** [return scan_results, scan_stats]. *)
Definition return_results : M (list dict * dict) :=
  fun s => (Ok (results s, stats s), s).

(** A dict literal. *)
Definition dict_of (l : list (string * value)) : dict :=
  fold_left (fun d kv => <[kv.1 := kv.2]> d) l ∅.

Declare Scope py_scope.
Delimit Scope py_scope with py.
Bind Scope py_scope with M.
Notation "x ← y ; z" := (bind y (fun x => z))
  (at level 20, y at level 100, z at level 200, only parsing) : py_scope.
Notation "x ;; z" := (bind x (fun _ => z))
  (at level 100, z at level 200, only parsing, right associativity)
  : py_scope.

(** The state in which a scan is started. *)
Definition boot (t0 : Z) (interrupt : option nat) : state :=
  {| results := []; stats := ∅; clock := t0; sigint := interrupt;
     trace := [] |}.

End Py.

(** ** The file system *)

Module Fs.
Import Py.
#[local] Open Scope py_scope.

(** What the scanners can learn about a regular file: its size ([None]:
    [os.path.getsize] raises), whether it can be opened for reading, and
    the hex digests of its content. *)
Record file_info := {
  size : option Z;
  readable : bool;
  md5_hex : string;
  sha256_hex : string
}.

(** What opening and reading to its end gives on a device, a socket or a
    pipe: [open] raises; the reading ends, and what was read has this MD5
    digest; or the reading never ends (a pipe nobody writes to, an endless
    device). *)
Inductive reading :=
| Refused
| Yields (md5 : string)
| Endless.

(** A node of the tree.  [Dir None] is a directory that cannot be listed;
    [Symlink None] a dangling link; [Special] a device, socket or pipe;
    [Faulty] an entry whose type queries raise [OSError]. *)
Inductive node :=
| File (f : file_info)
| Dir (listing : option (list (string * node)))
| Symlink (target : option node)
| Special (r : reading)
| Faulty.

(** Following links, as [open] and [stat] do. *)
Fixpoint resolve (n : node) : option node :=
  match n with
  | Symlink (Some t) => resolve t
  | Symlink None => None
  | _ => Some n
  end.

(** The methods of an [os.DirEntry] for the entry at [path]. *)
Definition is_symlink (path : string) (n : node) : M bool :=
  log (Examined path);;
  match n with
  | Faulty => raise OSError
  | Symlink _ => ret true
  | _ => ret false
  end.

Definition is_file (path : string) (n : node) : M bool :=
  match n with
  | Faulty => raise OSError
  | _ => ret (match resolve n with Some (File _) => true | _ => false end)
  end.

Definition is_dir (path : string) (n : node) : M bool :=
  match n with
  | Faulty => raise OSError
  | _ => ret (match resolve n with Some (Dir _) => true | _ => false end)
  end.

(** [os.path.getsize], as the scanners use it: on regular files. *)
Definition getsize (path : string) (n : node) : M Z :=
  log (Sized path);;
  match resolve n with
  | Some (File f) =>
      match size f with
      | Some z => ret z
      | None => raise OSError
      end
  | _ => raise OSError
  end.

(** Reading a whole file in chunks and hashing it: [Some digest], or
    [None] when [open] or [read] raises.  The deep and the custom scan hash
    regular files only: entries for which [is_file] holds, and a root for
    which [os.path.isfile] does. *)
Definition hash_file (digest : file_info -> string) (path : string)
           (n : node) : M (option string) :=
  log (Opened path);;
  ret (match resolve n with
        | Some (File f) => if readable f then Some (digest f) else None
        | _ => None
        end).

(** What opening a path and reading it to its end gives the signature
    scanner, which opens whatever [os.walk] does not list as a directory. *)
Inductive read_result :=
| Digest (md5 : string)
| Failed            (* [open] or [read] raised *)
| Hangs.            (* the reading never ends *)

Definition read_md5 (n : node) : read_result :=
  match resolve n with
  | Some (File f) => if readable f then Digest (md5_hex f) else Failed
  | Some (Special (Yields md5)) => Digest md5
  | Some (Special Endless) => Hangs
  | _ => Failed
  end.

(** The machine a scan runs on: the process environment ([os.environ]);
    the roots of the file system ([root p] is the node found at the path
    [p], if there is one); the interpreter's [str.lower] on text that is not
    pure ASCII; and the console: what the [k]-th call of [print] in the run
    raises, if anything. *)
Record world := {
  environ : gmap string string;
  root : string -> option node;
  unicode_lower : string -> string;
  console : nat -> option exn
}.

(** [os.environ.get(key, dflt)]. *)
Definition environ_get (w : world) (key dflt : string) : string :=
  default dflt (environ w !! key).

(** [os.path.exists]: links are followed; a dangling link, or a path that
    cannot be examined, does not exist. *)
Definition exists_ (w : world) (path : string) : bool :=
  match root w path with
  | Some n =>
      match resolve n with
      | Some Faulty | None => false
      | Some _ => negb (String.eqb path "")
      end
  | None => false
  end.

(** [os.path.isfile]. *)
Definition isfile (w : world) (path : string) : bool :=
  match root w path with
  | Some n => match resolve n with Some (File _) => true | _ => false end
  | None => false
  end.

(** How many times the run has called [print] so far. *)
Definition is_print (ev : event) : bool :=
  match ev with
  | Printed _ => true
  | _ => false
  end.

Definition printed (s : state) : nat :=
  length (List.filter is_print (trace s)).

(** [print(line)]: the call is logged, and the console answers with an
    exception or lets the line be written. *)
Definition print (w : world) (line : string) : M unit :=
  fun s =>
    let s' := set_trace (fun t => t ++ [Printed line]) s in
    match console w (printed s) with
    | Some e => (Raise e, s')
    | None => (Ok tt, s')
    end.

End Fs.

(** ** core/scanner/quick_scan.py *)

Module QuickScan.
Import Py Fs PyStr.
#[local] Open Scope py_scope.

(** [CRITICAL_PATHS], computed from the environment when the module is
    loaded. *)
Definition CRITICAL_PATHS (w : world) : list string :=
  let systemroot := environ_get w "SYSTEMROOT" "C:\Windows" in
  let appdata := environ_get w "APPDATA" "" in
  let temp := environ_get w "TEMP" "" in
  let userprofile := environ_get w "USERPROFILE" "" in
  [ OsPath.join systemroot "System32";
    OsPath.join systemroot "SysWOW64";
    fold_left OsPath.join
      ["Microsoft"; "Windows"; "Start Menu"; "Programs"; "Startup"] appdata;
    OsPath.join temp "";
    OsPath.join userprofile "Downloads";
    OsPath.join userprofile "Desktop" ]%string.

Definition SUSPICIOUS_EXTENSIONS : list string :=
  [".exe"; ".dll"; ".bat"; ".cmd"; ".ps1"; ".vbs"; ".js"; ".jar"; ".scr";
   ".pif"]%string.

(** The body of the inner [try] of [_scan_directory] for one entry;
    [recurse] is the recursive call on that entry. *)
Definition scan_entry (w : world) (directory name : string) (n : node)
           (recurse : M unit) : M unit :=
  let path := OsPath.join directory name in
  checkpoint;;
  symlink ← is_symlink path n;
  if symlink then ret tt
  else
    file ← is_file path n;
    if file then
      stats_incr "files_scanned";;
      let ext := OsPath.splitext_ext (lower (unicode_lower w) name) in
      if in_list ext SUSPICIOUS_EXTENSIONS then
        t ← now;
        results_append
          (dict_of [("file_path", VStr path);
                    ("status", VStr "suspicious");
                    ("reason", VStr ("Suspicious extension: " +:+ ext));
                    ("timestamp", VTime t)]%string);;
        stats_incr "suspicious_files"
      else ret tt
    else
      dir ← is_dir path n;
      if dir then recurse else ret tt.

(** [d] is the node at the path [directory].  When that node is a link,
    which can only be at the root of a scan (a link met as an entry is
    skipped), [os.scandir] opens what it points to. *)
Fixpoint _scan_directory (w : world) (directory : string) (d : node)
         (max_depth current_depth : Z) {struct d} : M unit :=
  match d with
  | Symlink (Some target) =>
      _scan_directory w directory target max_depth current_depth
  | _ =>
      if max_depth <? current_depth then ret tt
      else
        try_except
          (log (Listed directory);;
           match d with
           | Dir (Some entries) =>
               (fix each (entries : list (string * node)) : M unit :=
                  match entries with
                  | [] => ret tt
                  | (name, n) :: rest =>
                      try_except
                        (scan_entry w directory name n
                           (_scan_directory w (OsPath.join directory name) n
                                            max_depth (current_depth + 1)))
                        (except_Exception (stats_incr "errors"));;
                      each rest
                  end) entries
           | _ => raise OSError
           end)
          (except_Exception (stats_incr "errors"))
  end.

(** The loop of [_scan_directory] over the entries of a listed directory,
    as a function of its own. *)
Fixpoint scan_entries (w : world) (directory : string)
         (entries : list (string * node))
         (max_depth current_depth : Z) : M unit :=
  match entries with
  | [] => ret tt
  | (name, n) :: rest =>
      try_except
        (scan_entry w directory name n
           (_scan_directory w (OsPath.join directory name) n
                            max_depth (current_depth + 1)))
        (except_Exception (stats_incr "errors"));;
      scan_entries w directory rest max_depth current_depth
  end.

Definition initial_stats (start : Z) : dict :=
  dict_of [("files_scanned", VInt 0); ("suspicious_files", VInt 0);
           ("errors", VInt 0); ("start_time", VTime start);
           ("end_time", VNone); ("duration", VInt 0)]%string.

(** The loop of [run_quick_scan] over the critical paths. *)
Fixpoint scan_paths (w : world) (paths : list string) : M unit :=
  match paths with
  | [] => ret tt
  | path :: rest =>
      checkpoint;;
      (if exists_ w path then
         match root w path with
         | Some d => _scan_directory w path d 2 0
         | None => ret tt
         end
       else ret tt);;
      scan_paths w rest
  end.

Definition finish (start_time : Z) : M (list dict * dict) :=
  t ← now; stats_set "end_time" (VTime t);;
  t ← now; stats_set "duration" (VTime (t - start_time));;
  return_results.

Definition run_quick_scan (w : world) : M (list dict * dict) :=
  start_time ← now;
  t ← now;
  fresh (initial_stats t);;
  try_except
    (scan_paths w (CRITICAL_PATHS w);;
     finish start_time)
    (except_Exception (finish start_time)).

End QuickScan.

(** ** core/scanner/deep_scan.py *)

Module DeepScan.
Import Py Fs PyStr.
#[local] Open Scope py_scope.

Definition SYSTEM_PATHS (w : world) : list string :=
  [ OsPath.join (environ_get w "SYSTEMROOT" "C:\Windows") "";
    OsPath.join (environ_get w "PROGRAMFILES" "C:\Program Files") "";
    OsPath.join
      (environ_get w "PROGRAMFILES(X86)" "C:\Program Files (x86)") "";
    OsPath.join (environ_get w "APPDATA" "") "";
    OsPath.join (environ_get w "LOCALAPPDATA" "") "";
    OsPath.join (environ_get w "USERPROFILE" "") "" ]%string.

Definition TARGET_EXTENSIONS : list string :=
  [".exe"; ".dll"; ".sys"; ".drv"; ".ocx"; ".cpl";
   ".bat"; ".cmd"; ".ps1"; ".vbs"; ".js"; ".jse"; ".wsf"; ".wsh"; ".hta";
   ".jar"; ".class";
   ".doc"; ".docm"; ".xls"; ".xlsm"; ".ppt"; ".pptm";
   ".scr"; ".pif"; ".msi"; ".com"]%string.

Definition KNOWN_MALWARE_HASHES : list string :=
  ["e44f9e348c0c7eed13d225a9bdb4c576";
   "5b4f8efdd7bbe4a7dbd307f7778e5e66"]%string.

(** The names bound at module level in deep_scan.py.  A free function
    finds a name that is not one of its locals here (or among the
    builtins) or raises [NameError]. *)
Definition module_globals : list string :=
  ["os"; "sys"; "time"; "logging"; "hashlib"; "datetime"; "logger";
   "SYSTEM_PATHS"; "TARGET_EXTENSIONS"; "KNOWN_MALWARE_HASHES";
   "run_deep_scan"; "_scan_directory"; "_analyze_file";
   "_perform_heuristic_analysis"; "_protect_file"; "_calculate_md5";
   "_calculate_sha256"; "_show_progress"; "_format_duration"]%string.

Definition load_global (name : string) : M unit :=
  if in_list name module_globals then ret tt else raise NameError.

(** [os.path.dirname]: what precedes the last separator, without its
    trailing separators unless it is the root. *)
Fixpoint strip_trailing_sep (rev_head : string) : string :=
  match rev_head with
  | String c r => if Ascii.eqb c "/" then strip_trailing_sep r else rev_head
  | EmptyString => EmptyString
  end.

Definition dirname (p : string) : string :=
  let base := OsPath.basename p in
  let head := String.substring 0 (String.length p - String.length base) p in
  if OsPath.all_slashes head then head
  else String.rev (strip_trailing_sep (String.rev head)).

Definition _perform_heuristic_analysis (w : world) (file_path : string)
  : bool :=
  let suspicious_names := ["temp.exe"; "악성.dll"; "virus.bat"]%string in
  let suspicious_locations :=
    [ OsPath.join (environ_get w "TEMP" "") "";
      OsPath.join (environ_get w "APPDATA" "") "" ]%string in
  let file_name := lower (unicode_lower w) (OsPath.basename file_path) in
  let file_dir := lower (unicode_lower w) (dirname file_path) in
  if existsb (fun name => contains name file_name) suspicious_names then true
  else if existsb (fun location => contains location file_dir)
                  suspicious_locations then true
  else false.

(** [_calculate_md5] and [_calculate_sha256] catch what [open] raises and
    return the empty string. *)
Definition _calculate_md5 (file_path : string) (n : node) : M string :=
  h ← hash_file md5_hex file_path n; ret (default ""%string h).

Definition _calculate_sha256 (file_path : string) (n : node) : M string :=
  h ← hash_file sha256_hex file_path n; ret (default ""%string h).

Definition report (file_path status reason md5_hash sha256_hash : string)
           (file_size t : Z) : dict :=
  dict_of [("file_path", VStr file_path); ("status", VStr status);
           ("reason", VStr reason); ("md5", VStr md5_hash);
           ("sha256", VStr sha256_hash); ("size", VInt file_size);
           ("timestamp", VTime t)]%string.

(** The name checks at the end of [_analyze_file]: one reason per name
    found in the file name.  The [suspicious] flag of the source is set
    exactly when a reason is appended, so it is read off the list. *)
Definition name_reasons (names : list string) (filename : string)
  : list string :=
  flat_map (fun name =>
              if contains name filename
              then [("Suspicious filename pattern: " +:+ name)%string]
              else [])
           names.

(** The body of the [try] of [_analyze_file]. *)
Definition analyze_body (w : world) (file_path : string) (n : node)
  : M unit :=
  file_size ← getsize file_path n;
  if 100 * 1024 * 1024 <? file_size then ret tt
  else
    md5_hash ← _calculate_md5 file_path n;
    sha256_hash ← _calculate_sha256 file_path n;
    if in_list md5_hash KNOWN_MALWARE_HASHES then
      t ← now;
      results_append
        (report file_path "malicious" "Matched known malware signature"
                md5_hash sha256_hash file_size t);;
      stats_incr "confirmed_threats"
    else
      (* [self._perform_heuristic_analysis(file_path)]: [self] is looked
         up first *)
      load_global "self";;
      if _perform_heuristic_analysis w file_path then
        t ← now;
        results_append
          (report file_path "suspicious"
                  "Heuristic analysis flagged file as suspicious"
                  md5_hash sha256_hash file_size t);;
        stats_incr "suspicious_files"
      else
        let reason :=
          (if (file_size <? 1024) && endswith ".exe" (lower (unicode_lower w) file_path)
           then ["Unusually small executable"%string] else [])
          ++ name_reasons
               ["trojan"; "hack"; "crack"; "keygen"; "patch"; "warez"]%string
               (lower (unicode_lower w) (OsPath.basename file_path)) in
        match reason with
        | [] => ret tt
        | _ =>
            t ← now;
            results_append
              (report file_path "suspicious" (PyStr.join ", " reason)
                      md5_hash sha256_hash file_size t);;
            stats_incr "suspicious_files"
        end.

Definition _analyze_file (w : world) (file_path : string) (n : node)
  : M unit :=
  try_except (analyze_body w file_path n)
             (except_Exception (stats_incr "errors")).

Definition scan_entry (w : world) (directory name : string) (n : node)
           (recurse : M unit) : M unit :=
  let path := OsPath.join directory name in
  checkpoint;;
  symlink ← is_symlink path n;
  if symlink then ret tt
  else
    file ← is_file path n;
    if file then
      stats_incr "files_scanned";;
      let ext := OsPath.splitext_ext (lower (unicode_lower w) name) in
      if in_list ext TARGET_EXTENSIONS then _analyze_file w path n
      else ret tt
    else
      dir ← is_dir path n;
      if dir then recurse else ret tt.

(** As in the quick scan: a root that is a link is opened through it. *)
Fixpoint _scan_directory (w : world) (directory : string) (d : node)
         (max_depth current_depth : Z) {struct d} : M unit :=
  match d with
  | Symlink (Some target) =>
      _scan_directory w directory target max_depth current_depth
  | _ =>
      if max_depth <? current_depth then ret tt
      else
        try_except
          (log (Listed directory);;
           match d with
           | Dir (Some entries) =>
               (fix each (entries : list (string * node)) : M unit :=
                  match entries with
                  | [] => ret tt
                  | (name, n) :: rest =>
                      try_except
                        (scan_entry w directory name n
                           (_scan_directory w (OsPath.join directory name) n
                                            max_depth (current_depth + 1)))
                        (except_Exception (stats_incr "errors"));;
                      each rest
                  end) entries
           | _ => raise OSError
           end)
          (except_Exception (stats_incr "errors"))
  end.

(** The loop of [_scan_directory] over the entries of a listed directory,
    as a function of its own. *)
Fixpoint scan_entries (w : world) (directory : string)
         (entries : list (string * node))
         (max_depth current_depth : Z) : M unit :=
  match entries with
  | [] => ret tt
  | (name, n) :: rest =>
      try_except
        (scan_entry w directory name n
           (_scan_directory w (OsPath.join directory name) n
                            max_depth (current_depth + 1)))
        (except_Exception (stats_incr "errors"));;
      scan_entries w directory rest max_depth current_depth
  end.

Definition initial_stats (start : Z) : dict :=
  dict_of [("files_scanned", VInt 0); ("suspicious_files", VInt 0);
           ("confirmed_threats", VInt 0); ("errors", VInt 0);
           ("start_time", VTime start); ("end_time", VNone);
           ("duration", VInt 0)]%string.

(** [_show_progress] reads the clock and prints. *)
Definition _show_progress : M unit := _ ← now; ret tt.

Fixpoint scan_paths (w : world) (paths : list string) : M unit :=
  match paths with
  | [] => ret tt
  | path :: rest =>
      checkpoint;;
      (if exists_ w path then
         match root w path with
         | Some d => _scan_directory w path d 5 0;; _show_progress
         | None => ret tt
         end
       else ret tt);;
      scan_paths w rest
  end.

Definition finish (start_time : Z) : M (list dict * dict) :=
  t ← now; stats_set "end_time" (VTime t);;
  t ← now; stats_set "duration" (VTime (t - start_time));;
  return_results.

Definition run_deep_scan (w : world) : M (list dict * dict) :=
  start_time ← now;
  t ← now;
  fresh (initial_stats t);;
  try_except
    (scan_paths w (SYSTEM_PATHS w);;
     finish start_time)
    (except_Interrupt_then_Exception (finish start_time)
                                     (finish start_time)).

End DeepScan.

(** ** core/scanner/custom_scan.py *)

Module CustomScan.
Import Py Fs PyStr.
#[local] Open Scope py_scope.

Definition TARGET_EXTENSIONS : list string := DeepScan.TARGET_EXTENSIONS.

Definition _calculate_sha256 (file_path : string) (n : node) : M string :=
  h ← hash_file sha256_hex file_path n; ret (default ""%string h).

Definition report (file_path reason sha256_hash : string)
           (file_size t : Z) : dict :=
  dict_of [("file_path", VStr file_path); ("status", VStr "suspicious");
           ("reason", VStr reason); ("sha256", VStr sha256_hash);
           ("size", VInt file_size); ("timestamp", VTime t)]%string.

Definition suspicious_names : list string :=
  ["trojan"; "hack"; "crack"; "keygen"; "patch"; "warez"; "virus"]%string.

Definition name_reasons (names : list string) (filename : string)
  : list string :=
  flat_map (fun name =>
              if contains name filename
              then [("Suspicious filename pattern: " +:+ name)%string]
              else [])
           names.

(** The reasons [_analyze_file] collects for a file of that size and
    path; the [suspicious] flag of the source is set exactly when there
    is one. *)
Definition reasons (w : world) (file_size : Z) (file_path : string)
  : list string :=
  (if (file_size <? 1024)
      && endswith ".exe" (lower (unicode_lower w) file_path)
   then ["Unusually small executable"%string] else [])
  ++ name_reasons suspicious_names
       (lower (unicode_lower w) (OsPath.basename file_path)).

(** The handler of [_analyze_file] only logs.  The file is analysed
    whatever its extension when it is the root of the scan. *)
Definition _analyze_file (w : world) (file_path : string) (n : node)
  : M unit :=
  try_except
    (file_size ← getsize file_path n;
     if 100 * 1024 * 1024 <? file_size then ret tt
     else
       sha256_hash ← _calculate_sha256 file_path n;
       match reasons w file_size file_path with
       | [] => ret tt
       | reason =>
           t ← now;
           results_append
             (report file_path (PyStr.join ", " reason) sha256_hash
                     file_size t);;
           stats_incr "suspicious_files"
       end)
    (except_Exception (ret tt)).

(** [if stats['files_scanned'] % 100 == 0: print(...)]. *)
Definition progress (w : world) : M unit :=
  files_scanned ← stats_get "files_scanned";
  due ← multiple_of_100 files_scanned;
  if due then print w "Files scanned: {stats['files_scanned']}"
  else ret tt.

Definition scan_entry (w : world) (directory name : string) (n : node)
           (recurse : M unit) : M unit :=
  let path := OsPath.join directory name in
  checkpoint;;
  symlink ← is_symlink path n;
  if symlink then ret tt
  else
    file ← is_file path n;
    if file then
      stats_incr "files_scanned";;
      progress w;;
      let ext := OsPath.splitext_ext (lower (unicode_lower w) name) in
      if in_list ext TARGET_EXTENSIONS then _analyze_file w path n
      else ret tt
    else
      dir ← is_dir path n;
      if dir then recurse else ret tt.

(** Both handlers of [_scan_directory] log and print; as in the quick
    scan, a root that is a link is opened through it. *)
Fixpoint _scan_directory (w : world) (directory : string) (d : node)
         (max_depth current_depth : Z) {struct d} : M unit :=
  match d with
  | Symlink (Some target) =>
      _scan_directory w directory target max_depth current_depth
  | _ =>
      if max_depth <? current_depth then ret tt
      else
        try_except
          (log (Listed directory);;
           match d with
           | Dir (Some entries) =>
               (fix each (entries : list (string * node)) : M unit :=
                  match entries with
                  | [] => ret tt
                  | (name, n) :: rest =>
                      try_except
                        (scan_entry w directory name n
                           (_scan_directory w (OsPath.join directory name) n
                                            max_depth (current_depth + 1)))
                        (except_Exception
                           (print w "Error scanning {entry.path}: {e}"));;
                      each rest
                  end) entries
           | _ => raise OSError
           end)
          (except_Exception
             (print w "Error accessing directory {directory}: {e}"))
  end.

Definition initial_stats (start : Z) (target_path : string) : dict :=
  dict_of [("files_scanned", VInt 0); ("suspicious_files", VInt 0);
           ("start_time", VTime start); ("end_time", VNone);
           ("duration", VInt 0); ("target_path", VStr target_path)]%string.

(** [scan_stats['end_time'] = ...; scan_stats['duration'] = ...]. *)
Definition complete_stats (start_time : Z) : M unit :=
  t ← now; stats_set "end_time" (VTime t);;
  t ← now; stats_set "duration" (VTime (t - start_time)).

Definition is_suspicious (status : value) : bool :=
  match status with
  | VStr s => String.eqb s "suspicious"
  | _ => false
  end.

(** The loop that lists the suspicious files. *)
Fixpoint show_results (w : world) (scan_results : list dict) : M unit :=
  match scan_results with
  | [] => ret tt
  | result :: rest =>
      checkpoint;;
      status ← item result "status";
      (if is_suspicious status then
         _ ← item result "file_path";
         print w " - {result['file_path']}";;
         _ ← item result "reason";
         print w "   Reason: {result['reason']}";;
         print w "   SHA256: {result.get('sha256', 'N/A')}";;
         print w ""
       else ret tt);;
      show_results w rest
  end.

(** "Display results": the summary, then the suspicious files if there
    are any. *)
Definition display (w : world) : M unit :=
  print w "\nScan Complete!";;
  _ ← stats_get "duration";
  print w "Duration: {_format_duration(scan_stats['duration'])}";;
  _ ← stats_get "files_scanned";
  print w "Files Scanned: {scan_stats['files_scanned']}";;
  _ ← stats_get "suspicious_files";
  print w "Suspicious Files: {scan_stats['suspicious_files']}";;
  suspicious_files ← stats_get "suspicious_files";
  found ← gt_zero suspicious_files;
  if found then
    print w "\nSuspicious files found:";;
    scan_results ← get_results;
    show_results w scan_results
  else ret tt.

(** The [try] block starts with a point at which a pending Ctrl-C is
    delivered, as a loop iteration does. *)
Definition run_custom_scan (w : world) (target_path : string)
  : M (list dict * dict) :=
  if String.eqb target_path "" || negb (exists_ w target_path) then
    print w "Error: Path '{target_path}' does not exist.";;
    ret ([], ∅)
  else
    print w "\nDPC Sentinel X - Custom Scan: {target_path}";;
    print w "------------------------------------------";;
    start_time ← now;
    t ← now;
    fresh (initial_stats t target_path);;
    try_except
      (checkpoint;;
       match root w target_path with
       | Some n =>
           if isfile w target_path then
             print w "Scanning file: {target_path}";;
             stats_incr "files_scanned";;
             _analyze_file w target_path n
           else
             print w "Scanning directory: {target_path}";;
             _scan_directory w target_path n 10 0
       | None => raise OSError
       end;;
       complete_stats start_time;;
       display w;;
       return_results)
      (except_Interrupt_then_Exception
         (print w "\nScan interrupted by user.";;
          complete_stats start_time;;
          return_results)
         (print w "\nError during scan: {e}";;
          complete_stats start_time;;
          return_results)).

End CustomScan.

(** ** core/detection/signature_detection.py *)

Module SignatureDetection.
Import Py Fs PyStr.
#[local] Open Scope py_scope.

Definition signature_db : gmap string string :=
  list_to_map
    [("44d88612fea8a8f36de82e1278abb02f", "Trojan.Generic");
     ("81891b0d3cbb89c1e044b8c5c504c83a", "Worm.Win32");
     ("e6d290a03b70cfa5d4451da444bdea39", "Ransomware.Crypto")]%string.

(** [calculate_file_hash]: the digest; [Failed] for the [None] it returns,
    after a [print], when [open] or [read] raises; [Hangs] when the reading
    never ends and the call does not return. *)
Definition calculate_file_hash (w : world) (file_path : string) (n : node)
  : M read_result :=
  try_except
    (log (Opened file_path);;
     match read_md5 n with
     | Failed => raise OSError
     | r => ret r
     end)
    (except_Exception
       (print w "Error calculating hash for {file_path}: {str(e)}";;
        ret Failed)).

(** [scan_file]: the result dict, or [None] when the call does not
    return. *)
Definition scan_file (w : world) (file_path : string) (n : node)
  : M (option dict) :=
  let result :=
    dict_of [("file_path", VStr file_path); ("status", VStr "clean");
             ("threat_name", VNone)]%string in
  file_hash ← calculate_file_hash w file_path n;
  match file_hash with
  | Hangs => ret None
  | Failed => ret (Some (<["status"%string := VStr "error"]> result))
  | Digest file_hash =>
      if String.eqb file_hash "" then
        ret (Some (<["status"%string := VStr "error"]> result))
      else
        match signature_db !! file_hash with
        | Some threat =>
            ret (Some (<["threat_name"%string := VStr threat]>
                         (<["status"%string := VStr "infected"]> result)))
        | None => ret (Some result)
        end
  end.

(** [entry.is_dir()] as [os.walk] uses it: links are followed and an
    [OSError] counts as "not a directory". *)
Definition walk_is_dir (n : node) : bool :=
  match resolve n with
  | Some (Dir _) => true
  | _ => false
  end.

(** [os.walk(top)], top-down, [followlinks=False], [onerror=None]: a
    directory that cannot be listed yields nothing; every listed one
    yields itself with its sub-directories and its other entries, then
    the walks of the sub-directories that are not links.  [top] itself is
    opened through a link. *)
Fixpoint walk (top : string) (d : node) {struct d}
  : list (string * list (string * node) * list (string * node)) :=
  match d with
  | Symlink (Some target) => walk top target
  | Dir (Some entries) =>
      (top,
       List.filter (fun e => walk_is_dir e.2) entries,
       List.filter (fun e => negb (walk_is_dir e.2)) entries)
      :: (fix below (entries : list (string * node)) :=
            match entries with
            | [] => []
            | (name, n) :: rest =>
                match n with
                | Dir _ => walk (OsPath.join top name) n
                | _ => []
                end ++ below rest
            end) entries
  | _ => []
  end.

(** The walks of the sub-directories of a listed directory, as a function
    of its own. *)
Definition walk_below (top : string) (entries : list (string * node))
  : list (string * list (string * node) * list (string * node)) :=
  flat_map (fun '(name, n) =>
              match n with
              | Dir _ => walk (OsPath.join top name) n
              | _ => []
              end)
           entries.

(** [for file in files: results.append(self.scan_file(...))]; [false]
    when a call did not return. *)
Fixpoint scan_files (w : world) (root : string)
         (files : list (string * node)) : M bool :=
  match files with
  | [] => ret true
  | (file, n) :: rest =>
      checkpoint;;
      let file_path := OsPath.join root file in
      r ← scan_file w file_path n;
      match r with
      | Some result => results_append result;; scan_files w root rest
      | None => ret false
      end
  end.

(** [for root, _, files in os.walk(directory_path)]. *)
Fixpoint scan_walk (w : world)
         (walked : list (string * list (string * node)
                         * list (string * node))) : M bool :=
  match walked with
  | [] => ret true
  | (root, _, files) :: rest =>
      checkpoint;;
      returned ← scan_files w root files;
      if returned then scan_walk w rest else ret false
  end.

(** [scan_directory]: the results, those gathered before an exception
    included; [None] when a read never ends and the call does not
    return. *)
Definition scan_directory (w : world) (directory_path : string) (d : node)
  : M (option (list dict)) :=
  new_results;;
  returned ←
    try_except
      (scan_walk w (walk directory_path d))
      (except_Exception
         (print w "Error scanning directory {directory_path}: {str(e)}";;
          ret true));
  if returned then results ← get_results; ret (Some results)
  else ret None.

End SignatureDetection.

(** ** Specification-side definitions *)

Module Spec.
Import Py Fs.

(** The sum of the severities of a sequence of findings. *)
Definition sum_severities (findings : list AdvancedDetection.pattern_match)
  : Z :=
  fold_right (fun f acc => AdvancedDetection.m_severity f + acc) 0 findings.

(** The dict [_match_behavior_patterns] builds for a matched pattern. *)
Definition matched (p : AdvancedDetection.BehaviorPattern)
  : AdvancedDetection.pattern_match :=
  {| AdvancedDetection.m_pattern := AdvancedDetection.name p;
     AdvancedDetection.m_category :=
       AdvancedDetection.category_value (AdvancedDetection.category p);
     AdvancedDetection.m_severity := AdvancedDetection.severity p;
     AdvancedDetection.m_description := AdvancedDetection.description p |}.

(** The three checks of [_analyze_features]. *)
Definition high_entropy (feats : AIDetection.features) : bool :=
  (7.0 <? default 0.0 (AIDetection.f_entropy feats))%float.

Definition small_executable (feats : AIDetection.features) : bool :=
  (default 0 (AIDetection.f_file_size feats) <? 1024)
  && String.eqb (default ""%string (AIDetection.f_extension feats)) ".exe".

Definition suspicious_name (unicode_lower : string -> string)
           (file_path : string) : bool :=
  existsb (fun name =>
             PyStr.contains name
               (PyStr.lower unicode_lower (OsPath.basename file_path)))
          AIDetection.suspicious_names.

(** The byte-frequency histogram of a file: how often the byte value
    [b] occurs in [data]. *)
Definition bucket (data : list Byte.byte) (b : nat) : nat :=
  length (List.filter (fun x => Nat.eqb (Byte.to_nat x) b) data).

(** Where a path leads when it names the node [n]: links are followed as
    far as they go. *)
Fixpoint follow (n : node) : node :=
  match n with
  | Symlink (Some target) => follow target
  | _ => n
  end.

(** [chain d names n]: from the directory node [d], the names [names],
    taken one after the other, lead to the node [n], and every node on the
    way but the last is a directory that can be listed (so none is a
    symbolic link). *)
Inductive chain : node -> list string -> node -> Prop :=
| chain_here (d : node) : chain d [] d
| chain_step (entries : list (string * node)) (name : string) (child : node)
             (names : list string) (n : node) :
    In (name, child) entries ->
    chain child names n ->
    chain (Dir (Some entries)) (name :: names) n.

(** The path [names] levels below [top]. *)
Definition path_of (top : string) (names : list string) : string :=
  fold_left OsPath.join names top.

(** What a quick scan may do when its root path [top] names the node [d]
    and the depth limit is [k]: list a directory at most [k] levels below
    the root, reached from what the root path leads to through listable
    directories and, unless it is the root, a directory itself; examine an
    entry at most [k + 1] levels below the root, reached the same way;
    never size or open anything, nor print. *)
Definition allowed (top : string) (d : node) (k : Z) (ev : event) : Prop :=
  match ev with
  | Listed p =>
      exists names n,
        p = path_of top names /\ chain (follow d) names n
        /\ Z.of_nat (length names) <= k
        /\ (names = [] \/ exists l, n = Dir l)
  | Examined p =>
      exists names n,
        p = path_of top names /\ chain (follow d) names n
        /\ names <> [] /\ Z.of_nat (length names) <= k + 1
  | Sized _ | Opened _ | Printed _ => False
  end.

(** [reached_file top d p n]: [p] is the path of the entry [n], not a
    directory, of a directory reached from what the root path [top] leads
    to through listable directories, at whatever depth. *)
Definition reached_file (top : string) (d : node) (p : string) (n : node)
  : Prop :=
  exists names entries name,
    chain (follow d) names (Dir (Some entries))
    /\ In (name, n) entries
    /\ SignatureDetection.walk_is_dir n = false
    /\ p = OsPath.join (path_of top names) name.

(** What the signature scanner may do when its root path [top] names the
    node [d]: open such an entry, and print. *)
Definition walk_allowed (top : string) (d : node) (ev : event) : Prop :=
  match ev with
  | Opened p => exists n, reached_file top d p n
  | Printed _ => True
  | Listed _ | Examined _ | Sized _ => False
  end.

(** [emits P m]: whatever the state, running [m] only adds events that
    satisfy [P] to the log. *)
Definition emits {A} (P : event -> Prop) (m : M A) : Prop :=
  forall s, exists new, trace (m s).2 = trace s ++ new /\ Forall P new.

(** No interrupt is pending and the three counters of the quick scan
    hold these values. *)
Definition counters (s : state) (scanned suspicious errors : Z) : Prop :=
  sigint s = None
  /\ stats s !! "files_scanned"%string = Some (VInt scanned)
  /\ stats s !! "suspicious_files"%string = Some (VInt suspicious)
  /\ stats s !! "errors"%string = Some (VInt errors).

(** The same for the deep scan, with its counter of confirmed threats. *)
Definition deep_counters (s : state)
           (scanned suspicious confirmed errors : Z) : Prop :=
  counters s scanned suspicious errors
  /\ stats s !! "confirmed_threats"%string = Some (VInt confirmed).

(** Entries that are regular files, and entries whose examination
    raises. *)
Definition is_regular (e : string * node) : bool :=
  match e.2 with File _ => true | _ => false end.

Definition is_faulty (e : string * node) : bool :=
  match e.2 with Faulty => true | _ => false end.


(** The file paths and the statuses of a list of results. *)
Definition paths_of (rs : list dict) : list (option value) :=
  map (fun r => r !! "file_path"%string) rs.


(** The state after the size and the two digests of a file were taken. *)
Definition hashed (file_path : string) (s : state) : state :=
  set_trace (fun t => t ++ [Sized file_path; Opened file_path;
                            Opened file_path]) s.

(** The digests [_calculate_md5] and [_calculate_sha256] return for a
    file: those of its content when it can be read, the empty string
    otherwise. *)
Definition computed_md5 (f : file_info) : string :=
  if readable f then md5_hex f else ""%string.

Definition computed_sha256 (f : file_info) : string :=
  if readable f then sha256_hex f else ""%string.

(** The state in which a scan that was started at clock reading [t0],
    with no interrupt pending, begins to walk: nothing found yet, the
    counters as the scan has just created them. *)
Definition started (initial_stats : dict) (t0 : Z) : state :=
  set_stats (fun _ => initial_stats) (boot t0 None).

End Spec.

(** ** Induction on trees *)

(** Induction on a tree, with the hypothesis for every entry of a listed
    directory. *)
Fixpoint node_nested_ind (Q : Fs.node -> Prop)
         (HFile : forall f, Q (Fs.File f))
         (HUnlisted : Q (Fs.Dir None))
         (HDir : forall entries,
             Forall (fun e => Q e.2) entries -> Q (Fs.Dir (Some entries)))
         (HDangling : Q (Fs.Symlink None))
         (HLink : forall t, Q t -> Q (Fs.Symlink (Some t)))
         (HSpecial : forall r, Q (Fs.Special r))
         (HFaulty : Q Fs.Faulty)
         (n : Fs.node) {struct n} : Q n :=
  let rec := node_nested_ind Q HFile HUnlisted HDir HDangling HLink
                             HSpecial HFaulty in
  match n with
  | Fs.File f => HFile f
  | Fs.Dir None => HUnlisted
  | Fs.Dir (Some entries) =>
      HDir entries
           ((fix all (l : list (string * Fs.node))
               : Forall (fun e => Q e.2) l :=
               match l with
               | [] => @List.Forall_nil _ _
               | (name, c) :: r =>
                   @List.Forall_cons _ _ (name, c) r (rec c) (all r)
               end) entries)
  | Fs.Symlink None => HDangling
  | Fs.Symlink (Some t) => HLink t (rec t)
  | Fs.Special r => HSpecial r
  | Fs.Faulty => HFaulty
  end.

(** ** Concrete files, trees and worlds *)

Module Scenarios.
Import Py Fs Spec.

(** Every name below is pure ASCII, so that the Unicode case mappings are
    never consulted; the console accepts every line. *)
Definition empty_world : world :=
  {| environ := ∅; root := fun _ => None;
     unicode_lower := fun s => s; console := fun _ => None |}.

(** The state [run_deep_scan] is in when it starts walking. *)
Definition deep_start : state := started (DeepScan.initial_stats 1) 2.

(** A small known-malware sample and a large one with the same digest. *)
Definition sample_small : file_info :=
  {| size := Some 2048; readable := true;
     md5_hex := "e44f9e348c0c7eed13d225a9bdb4c576";
     sha256_hex := "" |}.

Definition sample_large : file_info :=
  {| size := Some (200 * 1024 * 1024); readable := true;
     md5_hex := "e44f9e348c0c7eed13d225a9bdb4c576";
     sha256_hex := "" |}.

(** A small executable with a tell-tale name and an unknown digest, and a
    large file with an unknown digest. *)
Definition keygen_small : file_info :=
  {| size := Some 512; readable := true;
     md5_hex := "0cc175b9c0f1b6a831c399e269772661";
     sha256_hex := "" |}.

Definition unknown_large : file_info :=
  {| size := Some (200 * 1024 * 1024); readable := true;
     md5_hex := "0cc175b9c0f1b6a831c399e269772661";
     sha256_hex := "" |}.

(** The benign text file of the specification's scenario. *)
Definition clean_file : file_info :=
  {| size := Some 1834; readable := true;
     md5_hex := "9e107d9d372bb6826bd81d3542a419d6";
     sha256_hex :=
       "d7a8fbb307d7809469ca9abcb0082e4f8d5651e46d3cdb762d02d0bf37c9e592" |}.

Definition clean_world : world :=
  {| environ := ∅;
     root := fun p => if String.eqb p "/scan/clean.txt"
                      then Some (File clean_file) else None;
     unicode_lower := fun s => s; console := fun _ => None |}.

(** A directory of one unreadable and nine readable files. *)
Definition plain_file : file_info :=
  {| size := Some 4096; readable := true;
     md5_hex := "0cc175b9c0f1b6a831c399e269772661";
     sha256_hex := "" |}.

Definition locked_file : file_info :=
  {| size := Some 4096; readable := false;
     md5_hex := "92eb5ffee6ae2fec3ad71c777531578f";
     sha256_hex := "" |}.

Definition ten_files : list (string * node) :=
  ("locked.dat", File locked_file)
  :: map (fun name => (name, File plain_file))
         ["notes.txt"; "photo.jpg"; "report.pdf"; "music.mp3"; "data.csv";
          "todo.md"; "page.html"; "archive.zip"; "setup.exe"]%string.

(** A tree four levels deep: /a/b holds an executable and a directory c,
    which holds another executable. *)
Definition deep_tree : node :=
  Dir (Some
    [("a", Dir (Some
       [("b", Dir (Some
          [("f.exe", File plain_file);
           ("c", Dir (Some [("g.exe", File plain_file)]))]))]))])%string.

(** A machine whose temporary directory and user profile are /tmp, which
    holds three files. *)
Definition three_files : node :=
  Dir (Some [("one.exe", File plain_file); ("two.exe", File plain_file);
             ("three.exe", File plain_file)])%string.

Definition tmp_world : world :=
  {| environ := {[ "TEMP"%string := "/tmp"%string;
                   "USERPROFILE"%string := "/tmp"%string ]};
     root := fun p => if String.eqb p "/tmp/" then Some three_files
                      else None;
     unicode_lower := fun s => s; console := fun _ => None |}.

End Scenarios.

(* ===================================================================== *)
(** * Part II: properties                                                *)
(* ===================================================================== *)

(** ** String and path helpers on concrete inputs *)

Example basename_clean : OsPath.basename "/scan/clean.txt" = "clean.txt"%string.
Proof. reflexivity. Qed.

Example splitext_upper (unicode_lower : string -> string) :
  OsPath.splitext_ext (PyStr.lower unicode_lower "Setup.EXE")
  = ".exe"%string.
Proof. reflexivity. Qed.

Example splitext_dotfile : OsPath.splitext_ext ".bashrc" = ""%string.
Proof. reflexivity. Qed.

Example join_plain : OsPath.join "/scan" "clean.txt" = "/scan/clean.txt"%string.
Proof. reflexivity. Qed.

Example join_trailing : OsPath.join "/tmp" "" = "/tmp/"%string.
Proof. reflexivity. Qed.

Example dirname_plain : DeepScan.dirname "/tmp/a/b.exe" = "/tmp/a"%string.
Proof. reflexivity. Qed.

(** ** The score aggregator *)

Section RiskScore.
Import AdvancedDetection.

Lemma py_sum_from (l : list Z) (acc : Z) :
  fold_left Z.add l acc = acc + fold_right Z.add 0 l.
Proof.
  revert acc. induction l as [|x l IH]; intros acc; simpl.
  - lia.
  - rewrite IH. lia.
Qed.

Lemma py_sum_severities (findings : list pattern_match) :
  py_sum (map m_severity findings) = Spec.sum_severities findings.
Proof.
  unfold py_sum. rewrite py_sum_from.
  induction findings as [|f l IH]; simpl in *; lia.
Qed.

Example risk_score_capped :
  _calculate_risk_score
    (_match_behavior_patterns ["keylogging"; "unwanted_popups"]%string) = 100.
Proof. reflexivity. Qed.

Example risk_score_adware :
  _calculate_risk_score
    (_match_behavior_patterns ["unwanted_popups"]%string) = 60.
Proof. reflexivity. Qed.

(** C1: for every finite sequence of findings the aggregator returns
    min(100, (sum of the severities) * 10); it returns 0 for the empty
    sequence, and 100 for a single finding of severity 10. *)
Theorem risk_score_is_capped_sum :
  (forall findings : list pattern_match,
      _calculate_risk_score findings
      = Z.min 100 (Spec.sum_severities findings * 10))
  /\ _calculate_risk_score [] = 0
  /\ (forall pattern category description : string,
         _calculate_risk_score
           [ {| m_pattern := pattern; m_category := category;
                m_severity := 10; m_description := description |} ] = 100).
Proof.
  split; [|split].
  - intros [|f l].
    + reflexivity.
    + unfold _calculate_risk_score. now rewrite py_sum_severities.
  - reflexivity.
  - intros. reflexivity.
Qed.

End RiskScore.

(** ** The AI detector's thresholds *)

Section AIThresholds.
Import AIDetection.
#[local] Open Scope float_scope.

Example ai_small_keygen (unicode_lower : string -> string) :
  let r := _analyze_features unicode_lower 0
             {| f_file_size := Some 512%Z; f_entropy := Some 0.0;
                f_extension := Some ".exe"%string;
                f_sha256 := Some ""%string |}
             "/root/virus_keygen.exe" in
  classification r = "malicious"%string /\ score r = 0.9.
Proof. vm_compute. split; reflexivity. Qed.

Example ai_packed_only (unicode_lower : string -> string) :
  let r := _analyze_features unicode_lower 0
             {| f_file_size := Some 4096%Z; f_entropy := Some 7.5;
                f_extension := Some ".bin"%string;
                f_sha256 := Some ""%string |}
             "/root/blob.bin" in
  classification r = "benign"%string /\ score r = 0.3.
Proof. vm_compute. split; reflexivity. Qed.

(** The accumulated score takes one of eight values. *)
Lemma accumulate_values (unicode_lower : string -> string)
      (feats : features) (file_path : string) :
  In (accumulate unicode_lower feats file_path).1
     [0.0; 0.0 + 0.5; 0.0 + 0.4; 0.0 + 0.4 + 0.5;
      0.0 + 0.3; 0.0 + 0.3 + 0.5; 0.0 + 0.3 + 0.4; 0.0 + 0.3 + 0.4 + 0.5].
Proof.
  unfold accumulate.
  destruct (7.0 <? _); destruct (_ && _)%bool; destruct (List.find _ _);
    simpl; tauto.
Qed.

(** C4: the classification is 'malicious' exactly when the accumulated
    threat score is at least 0.75, 'suspicious' exactly when it is at
    least 0.4 and below 0.75, 'benign' otherwise; the reported score lies
    in [0, 1]. *)
Theorem ai_classification_by_threshold :
  forall (unicode_lower : string -> string) (now : Z) (feats : features)
         (file_path : string),
    let threat_score := (accumulate unicode_lower feats file_path).1 in
    let r := _analyze_features unicode_lower now feats file_path in
    (classification r = "malicious"%string
     <-> (0.75 <=? threat_score) = true)
    /\ (classification r = "suspicious"%string
        <-> (0.4 <=? threat_score) = true /\ (threat_score <? 0.75) = true)
    /\ (classification r = "benign"%string
        <-> (0.4 <=? threat_score) = false)
    /\ (0.0 <=? score r) = true
    /\ (score r <=? 1.0) = true.
Proof.
  intros unicode_lower now feats file_path threat_score r.
  assert (Hr : classification r = classify threat_score
               /\ score r = py_min threat_score 1.0).
  { unfold r, threat_score, _analyze_features.
    destruct (accumulate unicode_lower feats file_path) as [ts dt].
    now simpl. }
  destruct Hr as [-> ->].
  pose proof (accumulate_values unicode_lower feats file_path) as Hv.
  fold threat_score in Hv. clearbody threat_score. clear r.
  simpl in Hv.
  repeat (destruct Hv as [<- | Hv];
          [vm_compute; repeat split; intros; try reflexivity;
           try discriminate; intuition discriminate |]).
  contradiction.
Qed.

End AIThresholds.

(** ** The byte histogram of the entropy computation *)

Section Histogram.
Import AIDetection.

Lemma wrap64_small (z : Z) : - 2 ^ 63 <= z < 2 ^ 63 -> wrap64 z = z.
Proof. intros H. unfold wrap64. rewrite Z.mod_small; lia. Qed.

Lemma np_incr_length (i : nat) (a : list Z) :
  length (np_incr i a) = length a.
Proof.
  unfold np_incr. destruct (a !! i); [apply length_insert | reflexivity].
Qed.

Lemma byte_counts_length (data : list Byte.byte) (acc : list Z) :
  length (fold_left (fun counts byte => np_incr (Byte.to_nat byte) counts)
                    data acc) = length acc.
Proof.
  revert acc. induction data as [|x data IH]; intros acc; simpl.
  - reflexivity.
  - rewrite IH. apply np_incr_length.
Qed.

(** Below 2^63 bytes no cell wraps, and the loop counts occurrences. *)
Lemma byte_counts_lookup (data : list Byte.byte) :
  forall (acc : list Z) (i : nat) (c : Z),
    (forall j v, acc !! j = Some v ->
                 0 <= v /\ v + Z.of_nat (length data) < 2 ^ 63) ->
    acc !! i = Some c ->
    fold_left (fun counts byte => np_incr (Byte.to_nat byte) counts)
              data acc !! i
    = Some (c + Z.of_nat (Spec.bucket data i)).
Proof.
  induction data as [|x data IH]; intros acc i c Hb Hi.
  - simpl. rewrite Hi. f_equal. unfold Spec.bucket. simpl. lia.
  - cbn [fold_left].
    assert (Hlen : length (x :: data) = S (length data)) by reflexivity.
    unfold Spec.bucket. cbn [List.filter].
    destruct (Nat.eqb_spec (Byte.to_nat x) i) as [Heq | Hne].
    + subst i. unfold np_incr at 2. rewrite Hi.
      destruct (Hb _ _ Hi) as [Hc0 Hc1]. rewrite Hlen in Hc1.
      rewrite wrap64_small by lia.
      rewrite (IH _ (Byte.to_nat x) (c + 1)).
      * f_equal. unfold Spec.bucket. simpl. lia.
      * intros j v Hj.
        destruct (decide (j = Byte.to_nat x)) as [-> | Hjn].
        -- rewrite list_lookup_insert_eq in Hj
             by (apply lookup_lt_Some in Hi; exact Hi).
           injection Hj as <-. lia.
        -- rewrite list_lookup_insert_ne in Hj by congruence.
           destruct (Hb _ _ Hj). lia.
      * apply list_lookup_insert_eq. apply lookup_lt_Some in Hi. exact Hi.
    + assert (Hb' : forall j v,
                 np_incr (Byte.to_nat x) acc !! j = Some v ->
                 0 <= v /\ v + Z.of_nat (length data) < 2 ^ 63).
      { intros j v Hj. unfold np_incr in Hj.
        destruct (acc !! Byte.to_nat x) as [c'|] eqn:Hx.
        - destruct (decide (j = Byte.to_nat x)) as [-> | Hjn].
          + rewrite list_lookup_insert_eq in Hj
              by (apply lookup_lt_Some in Hx; exact Hx).
            injection Hj as <-.
            destruct (Hb _ _ Hx) as [? Hc1]. rewrite Hlen in Hc1.
            rewrite wrap64_small by lia. lia.
          + rewrite list_lookup_insert_ne in Hj by congruence.
            destruct (Hb _ _ Hj) as [? Hc1]. rewrite Hlen in Hc1. lia.
        - destruct (Hb _ _ Hj) as [? Hc1]. rewrite Hlen in Hc1. lia. }
      rewrite (IH _ i c Hb').
      * reflexivity.
      * unfold np_incr. destruct (acc !! Byte.to_nat x); [|exact Hi].
        rewrite list_lookup_insert_ne by congruence. exact Hi.
Qed.

(** X5: for a file of fewer than 2^63 bytes (every Python bytes object is
    one) no 64-bit cell of the histogram wraps around, and after the loop
    of [_calculate_entropy] the 256 cells hold, in order, the number of
    occurrences of each byte value. *)
Theorem byte_counts_histogram (data : list Byte.byte) :
  Z.of_nat (length data) < 2 ^ 63 ->
  byte_counts data
  = map (fun b => Z.of_nat (Spec.bucket data b)) (seq 0 256).
Proof.
  intros Hlen. apply list_eq. intros i.
  destruct (decide (i < 256)%nat) as [Hi | Hi].
  - unfold byte_counts.
    rewrite (byte_counts_lookup data (np_zeros 256) i 0).
    + rewrite list_lookup_fmap, lookup_seq_lt by exact Hi. reflexivity.
    + intros j v Hj. apply lookup_replicate in Hj as [-> _]. lia.
    + apply lookup_replicate. split; [reflexivity | exact Hi].
  - rewrite !lookup_ge_None_2; [reflexivity | |].
    + rewrite length_map, length_seq. lia.
    + unfold byte_counts. rewrite byte_counts_length.
      unfold np_zeros. rewrite length_replicate. lia.
Qed.

Lemma byte_counts_histogram_witness :
  byte_counts [Byte.x41; Byte.x42; Byte.x41]
  = map (fun b => Z.of_nat (Spec.bucket [Byte.x41; Byte.x42; Byte.x41] b))
        (seq 0 256).
Proof. apply byte_counts_histogram. simpl. lia. Defined.

(** A cell that holds 2^63 - 1 wraps to -2^63 on the next increment. *)
Example histogram_cell_wraps :
  np_incr 0 [2 ^ 63 - 1] = [- 2 ^ 63].
Proof. reflexivity. Qed.

Example byte_counts_aba :
  let counts := byte_counts [Byte.x41; Byte.x42; Byte.x41] in
  counts !! 65%nat = Some 2 /\ counts !! 66%nat = Some 1
  /\ counts !! 67%nat = Some 0 /\ length counts = 256%nat.
Proof. vm_compute. repeat split; reflexivity. Qed.

End Histogram.

(** ** Stepping through the monad *)

Section MonadSteps.
Import Py.

Lemma bind_ok {A B} (m : M A) (k : A -> M B) (s s' : state) (a : A) :
  m s = (Ok a, s') -> bind m k s = k a s'.
Proof. intros H. unfold bind. now rewrite H. Qed.

Lemma bind_raise {A B} (m : M A) (k : A -> M B) (s s' : state) (e : exn) :
  m s = (Raise e, s') -> bind m k s = (Raise e, s').
Proof. intros H. unfold bind. now rewrite H. Qed.

Lemma try_ok {A} (m : M A) (h : exn -> option (M A)) (s s' : state) (a : A) :
  m s = (Ok a, s') -> try_except m h s = (Ok a, s').
Proof. intros H. unfold try_except. now rewrite H. Qed.

Lemma try_caught {A} (m h' : M A) (h : exn -> option (M A))
      (s s' : state) (e : exn) :
  m s = (Raise e, s') -> h e = Some h' -> try_except m h s = h' s'.
Proof. intros H He. unfold try_except. now rewrite H, He. Qed.

Lemma try_uncaught {A} (m : M A) (h : exn -> option (M A))
      (s s' : state) (e : exn) :
  m s = (Raise e, s') -> h e = None -> try_except m h s = (Raise e, s').
Proof. intros H He. unfold try_except. now rewrite H, He. Qed.

Lemma stats_incr_ok (key : string) (n : Z) (s : state) :
  stats s !! key = Some (VInt n) ->
  stats_incr key s = (Ok tt, set_stats (insert key (VInt (n + 1))) s).
Proof. intros H. unfold stats_incr. now rewrite H. Qed.

Lemma in_list_In (x : string) (l : list string) :
  PyStr.in_list x l = true <-> In x l.
Proof.
  unfold PyStr.in_list. rewrite existsb_exists. split.
  - intros [y [Hy Heq]]. apply String.eqb_eq in Heq. now subst.
  - intros H. exists x. split; [exact H | apply String.eqb_refl].
Qed.

End MonadSteps.

(** ** Deep scan: the analysis of one file *)

Section DeepAnalysis.
Import Py Fs DeepScan Spec.

#[local] Arguments report : simpl never.
#[local] Arguments PyStr.in_list : simpl never.
#[local] Arguments Z.mul : simpl never.
#[local] Arguments Z.ltb : simpl never.

(** [self] is not a global of the module. *)
Lemma load_global_self (s : state) :
  load_global "self" s = (Raise NameError, s).
Proof. reflexivity. Qed.

Lemma set_trace_app (l1 l2 : list event) (s : state) :
  set_trace (fun t => t ++ l2) (set_trace (fun t => t ++ l1) s)
  = set_trace (fun t => t ++ l1 ++ l2) s.
Proof. unfold set_trace. simpl. now rewrite <- app_assoc. Qed.

(** A file above 100 MB is skipped before anything is hashed. *)
Lemma deep_large_file_skipped (w : world) (file_path : string)
      (f : file_info) (sz : Z) (s : state) :
  size f = Some sz -> 100 * 1024 * 1024 < sz ->
  _analyze_file w file_path (File f) s
  = (Ok tt, set_trace (fun t => t ++ [Sized file_path]) s).
Proof.
  intros Hsz Hbig.
  unfold _analyze_file, analyze_body, getsize, log, try_except, bind, ret.
  simpl. rewrite Hsz.
  destruct (Z.ltb_spec (100 * 1024 * 1024) sz) as [_ | Hle]; [|lia].
  reflexivity.
Qed.

Lemma deep_body_known (w : world) (file_path : string)
      (f : file_info) (sz n : Z) (s : state) :
  size f = Some sz -> sz <= 100 * 1024 * 1024 ->
  In (computed_md5 f) KNOWN_MALWARE_HASHES ->
  stats s !! "confirmed_threats"%string = Some (VInt n) ->
  _analyze_file w file_path (File f) s
  = (Ok tt,
     set_stats (insert "confirmed_threats"%string (VInt (n + 1)))
       (set_results
          (fun l => l ++ [report file_path "malicious"
                                 "Matched known malware signature"
                                 (computed_md5 f) (computed_sha256 f)
                                 sz (clock s)])
          (set_clock (fun t => t + 1) (hashed file_path s)))).
Proof.
  intros Hsz Hsmall Hin Hstat. apply in_list_In in Hin.
  unfold _analyze_file, analyze_body, getsize, _calculate_md5,
    _calculate_sha256, hash_file, log, try_except, bind, ret.
  simpl. rewrite Hsz.
  destruct (Z.ltb_spec (100 * 1024 * 1024) sz) as [Hbig | _]; [lia|].
  unfold computed_md5, computed_sha256 in *.
  destruct (readable f); [|discriminate Hin].
  simpl; rewrite Hin; simpl;
    unfold stats_incr; simpl; rewrite Hstat;
    unfold hashed, set_stats, set_results, set_clock, set_trace; simpl;
    now rewrite <- !app_assoc.
Qed.

Lemma deep_body_unknown (w : world) (file_path : string)
      (f : file_info) (sz : Z) (s : state) :
  size f = Some sz -> sz <= 100 * 1024 * 1024 ->
  ~ In (computed_md5 f) KNOWN_MALWARE_HASHES ->
  analyze_body w file_path (File f) s
  = (Raise NameError, hashed file_path s).
Proof.
  intros Hsz Hsmall Hin.
  assert (Hno : PyStr.in_list (computed_md5 f) KNOWN_MALWARE_HASHES = false).
  { destruct (PyStr.in_list _ _) eqn:E; [|reflexivity].
    apply in_list_In in E. contradiction. }
  unfold analyze_body, getsize, _calculate_md5, _calculate_sha256,
    hash_file, log, bind, ret.
  simpl. rewrite Hsz.
  destruct (Z.ltb_spec (100 * 1024 * 1024) sz) as [Hbig | _]; [lia|].
  unfold computed_md5 in *.
  destruct (readable f); simpl; try rewrite Hno; simpl;
    unfold hashed, set_trace; simpl; now rewrite <- !app_assoc.
Qed.

End DeepAnalysis.

Section DeepVerdicts.
Import Py Fs DeepScan Spec Scenarios.

Lemma report_fields (file_path status reason md5_hash sha256_hash : string)
      (file_size t : Z) :
  let d := report file_path status reason md5_hash sha256_hash file_size t in
  d !! "file_path"%string = Some (VStr file_path)
  /\ d !! "status"%string = Some (VStr status)
  /\ d !! "md5"%string = Some (VStr md5_hash).
Proof. repeat split; reflexivity. Qed.

(** C2 (as stated) fails: a file above 100 MB whose MD5 is in the list
    leaves no result and does not move the confirmed-threats counter. *)
Lemma deep_known_hash_large_file_unreported :
  In (md5_hex sample_large) KNOWN_MALWARE_HASHES
  /\ (let out := _analyze_file empty_world "/data/setup.exe"
                               (File sample_large) deep_start in
      out.1 = Ok tt
      /\ results out.2 = []
      /\ stats out.2 !! "confirmed_threats"%string = Some (VInt 0)).
Proof.
  split; [left; reflexivity|].
  rewrite (deep_large_file_skipped _ _ _ (200 * 1024 * 1024))
    by (reflexivity || lia).
  repeat split; reflexivity.
Qed.

(** C2 (amended): every file that can be sized and read, is at most
    100 MB and whose MD5 is in the known-malware list gets a result with
    status 'malicious', and the confirmed-threats counter goes up by one,
    whatever its path and the environment (the heuristics are not
    consulted). *)
Theorem deep_known_hash_is_malicious
        (w : world) (file_path : string) (f : file_info) (sz n : Z)
        (s : state) :
  size f = Some sz -> sz <= 100 * 1024 * 1024 -> readable f = true ->
  In (md5_hex f) KNOWN_MALWARE_HASHES ->
  stats s !! "confirmed_threats"%string = Some (VInt n) ->
  let out := _analyze_file w file_path (File f) s in
  out.1 = Ok tt
  /\ (exists verdict,
         results out.2 = results s ++ [verdict]
         /\ verdict !! "status"%string = Some (VStr "malicious")
         /\ verdict !! "file_path"%string = Some (VStr file_path)
         /\ verdict !! "md5"%string = Some (VStr (md5_hex f)))
  /\ stats out.2 = <["confirmed_threats"%string := VInt (n + 1)]> (stats s).
Proof.
  intros Hsz Hsmall Hread Hin Hstat out. subst out.
  assert (Hmd5 : computed_md5 f = md5_hex f)
    by (unfold computed_md5; now rewrite Hread).
  rewrite (deep_body_known w file_path f sz n s Hsz Hsmall)
    by (rewrite ?Hmd5; assumption).
  simpl. split; [reflexivity|]. split; [|reflexivity].
  eexists. split; [reflexivity|].
  rewrite Hmd5.
  pose proof (report_fields file_path "malicious"
                "Matched known malware signature" (md5_hex f)
                (computed_sha256 f) sz (clock s)) as (Hp & Hst & Hm).
  auto.
Qed.

Lemma deep_known_hash_is_malicious_witness :
  let out := _analyze_file empty_world "/data/setup.exe"
                           (File sample_small) deep_start in
  out.1 = Ok tt
  /\ (exists verdict,
         results out.2 = results deep_start ++ [verdict]
         /\ verdict !! "status"%string = Some (VStr "malicious")
         /\ verdict !! "file_path"%string = Some (VStr "/data/setup.exe")
         /\ verdict !! "md5"%string = Some (VStr (md5_hex sample_small)))
  /\ stats out.2
     = <["confirmed_threats"%string := VInt (0 + 1)]> (stats deep_start).
Proof.
  apply (deep_known_hash_is_malicious empty_world "/data/setup.exe"
           sample_small 2048 0 deep_start).
  - reflexivity.
  - lia.
  - reflexivity.
  - left. reflexivity.
  - reflexivity.
Defined.

(** C5 (as stated) fails: for a file above 100 MB whose MD5 is not in the
    list the analysis body returns normally, and no error is counted. *)
Lemma deep_unknown_hash_large_file_no_error :
  ~ In (md5_hex unknown_large) KNOWN_MALWARE_HASHES
  /\ (analyze_body empty_world "/data/big.exe" (File unknown_large)
                   deep_start).1 = Ok tt
  /\ stats (_analyze_file empty_world "/data/big.exe" (File unknown_large)
                          deep_start).2 !! "errors"%string = Some (VInt 0).
Proof.
  split; [|split].
  - simpl. intros [H | [H | []]]; discriminate H.
  - reflexivity.
  - rewrite (deep_large_file_skipped _ _ _ (200 * 1024 * 1024))
      by (reflexivity || lia).
    reflexivity.
Qed.

(** C5 (amended): for every file that passes the size check of
    [_analyze_file] (its size can be read and is at most 100 MB) and whose
    computed MD5 is not in the known-malware list, the analysis body raises
    [NameError]; the handler counts one error; nothing is appended to the
    results, whatever the heuristics that follow would have reported. *)
Theorem deep_unknown_hash_raises_NameError
        (w : world) (file_path : string) (f : file_info) (sz e : Z)
        (s : state) :
  size f = Some sz -> sz <= 100 * 1024 * 1024 ->
  ~ In (computed_md5 f) KNOWN_MALWARE_HASHES ->
  stats s !! "errors"%string = Some (VInt e) ->
  (analyze_body w file_path (File f) s).1 = Raise NameError
  /\ (let out := _analyze_file w file_path (File f) s in
      out.1 = Ok tt
      /\ stats out.2 = <["errors"%string := VInt (e + 1)]> (stats s)
      /\ results out.2 = results s).
Proof.
  intros Hsz Hsmall Hin Herr.
  pose proof (deep_body_unknown w file_path f sz s Hsz Hsmall Hin) as Hbody.
  split; [now rewrite Hbody|].
  unfold _analyze_file.
  rewrite (try_caught _ (stats_incr "errors") _ _ _ _ Hbody)
    by reflexivity.
  rewrite (stats_incr_ok "errors" e) by exact Herr.
  repeat split; reflexivity.
Qed.

Lemma deep_unknown_hash_raises_NameError_witness :
  (analyze_body empty_world "/data/keygen.exe" (File keygen_small)
                deep_start).1 = Raise NameError
  /\ (let out := _analyze_file empty_world "/data/keygen.exe"
                               (File keygen_small) deep_start in
      out.1 = Ok tt
      /\ stats out.2 = <["errors"%string := VInt (0 + 1)]> (stats deep_start)
      /\ results out.2 = results deep_start).
Proof.
  apply (deep_unknown_hash_raises_NameError empty_world "/data/keygen.exe"
           keygen_small 512 0 deep_start).
  - reflexivity.
  - lia.
  - simpl. intros [H | [H | []]]; discriminate H.
  - reflexivity.
Defined.

End DeepVerdicts.

(** ** Custom scan of a single file, and of a missing path *)

Section CustomSingleFile.
Import Py Fs CustomScan Spec Scenarios.

#[local] Arguments initial_stats : simpl never.
#[local] Arguments report : simpl never.
#[local] Arguments reasons : simpl never.
#[local] Arguments Z.mul : simpl never.
#[local] Arguments Z.ltb : simpl never.

Lemma custom_initial_counters (t : Z) (target_path : string) :
  initial_stats t target_path !! "files_scanned"%string = Some (VInt 0)
  /\ initial_stats t target_path !! "suspicious_files"%string
     = Some (VInt 0).
Proof. split; reflexivity. Qed.

Lemma exists_file_root (w : world) (path : string) (n : node)
      (f : file_info) :
  path <> ""%string -> root w path = Some n -> resolve n = Some (File f) ->
  exists_ w path = true /\ isfile w path = true.
Proof.
  intros Hne Hroot Hfile. unfold exists_, isfile. rewrite Hroot, Hfile.
  destruct (String.eqb_spec path ""); [contradiction | split; reflexivity].
Qed.

(** A console that accepts the line. *)
Lemma print_ok (w : world) (line : string) (s : state) :
  console w (printed s) = None ->
  print w line s = (Ok tt, set_trace (fun t => t ++ [Printed line]) s).
Proof. intros H. unfold print. now rewrite H. Qed.

Lemma print_raises (w : world) (line : string) (s : state) (e : exn) :
  console w (printed s) = Some e ->
  print w line s = (Raise e, set_trace (fun t => t ++ [Printed line]) s).
Proof. intros H. unfold print. now rewrite H. Qed.

Lemma custom_clean_file_run (w : world) (target_path : string) (n : node)
      (f : file_info) (sz t0 : Z) :
  target_path <> ""%string ->
  root w target_path = Some n -> resolve n = Some (File f) ->
  size f = Some sz ->
  reasons w sz target_path = [] ->
  (forall k, console w k = None) ->
  (run_custom_scan w target_path (boot t0 None)).1
  = Ok ([],
        <["duration"%string := VTime (t0 + 1 + 1 + 1 - t0)]>
          (<["end_time"%string := VTime (t0 + 1 + 1)]>
             (<["files_scanned"%string := VInt (0 + 1)]>
                (initial_stats (t0 + 1) target_path)))).
Proof.
  intros Hne Hroot Hfile Hsz Hclean Hquiet.
  destruct (exists_file_root w target_path n f Hne Hroot Hfile)
    as [Hexists Hisfile].
  unfold run_custom_scan. rewrite Hexists, Hisfile, Hroot.
  destruct (String.eqb_spec target_path ""); [contradiction|].
  simpl.
  unfold display, complete_stats, _analyze_file, getsize, _calculate_sha256,
    hash_file, return_results, stats_set, stats_get, gt_zero, fresh, now,
    checkpoint, log, print, try_except, bind, ret.
  unfold stats_incr.
  destruct (custom_initial_counters (t0 + 1) target_path) as [Hfs Hsusp].
  repeat (progress (rewrite ?Hquiet, ?Hfs, ?Hfile, ?Hsz; simpl)).
  destruct (100 * 1024 * 1024 <? sz); simpl; rewrite ?Hclean;
    repeat (progress (rewrite ?Hquiet, ?Hsusp;
                      rewrite ?lookup_insert_eq;
                      rewrite ?lookup_insert_ne by discriminate; simpl));
    reflexivity.
Qed.

(** C6 (as stated) fails: the custom scan of the benign file
    /scan/clean.txt returns an empty result list, not one verdict. *)
Lemma custom_scan_clean_file_no_verdict :
  match (run_custom_scan clean_world "/scan/clean.txt" (boot 0 None)).1 with
  | Ok (verdicts, _) => length verdicts = 0%nat
  | Raise _ => False
  end.
Proof. vm_compute. reflexivity. Qed.

(** C6 (amended): a custom scan whose root is a single file (or a link to
    one) on which no check of [_analyze_file] fires returns, when no Ctrl-C
    arrives and the console accepts what the scan prints, an empty result
    list (a clean file leaves no entry), and statistics with
    files_scanned = 1 and suspicious_files = 0. *)
Theorem custom_scan_clean_file
        (w : world) (target_path : string) (n : node) (f : file_info)
        (sz t0 : Z) :
  target_path <> ""%string ->
  root w target_path = Some n -> resolve n = Some (File f) ->
  size f = Some sz ->
  reasons w sz target_path = [] ->
  (forall k, console w k = None) ->
  exists statistics,
    (run_custom_scan w target_path (boot t0 None)).1 = Ok ([], statistics)
    /\ statistics !! "files_scanned"%string = Some (VInt 1)
    /\ statistics !! "suspicious_files"%string = Some (VInt 0).
Proof.
  intros Hne Hroot Hfile Hsz Hclean Hquiet.
  eexists. split.
  - apply (custom_clean_file_run w target_path n f sz t0); assumption.
  - split.
    + rewrite !lookup_insert_ne by discriminate.
      now rewrite lookup_insert_eq.
    + rewrite !lookup_insert_ne by discriminate.
      apply custom_initial_counters.
Qed.

Lemma custom_scan_clean_file_witness :
  exists statistics,
    (run_custom_scan clean_world "/scan/clean.txt" (boot 0 None)).1
    = Ok ([], statistics)
    /\ statistics !! "files_scanned"%string = Some (VInt 1)
    /\ statistics !! "suspicious_files"%string = Some (VInt 0).
Proof.
  apply (custom_scan_clean_file clean_world "/scan/clean.txt"
           (File clean_file) clean_file 1834 0).
  - discriminate.
  - reflexivity.
  - reflexivity.
  - reflexivity.
  - reflexivity.
  - reflexivity.
Defined.

(** A name that does fire a check, in the same place: one entry. *)
Example custom_scan_keygen_file :
  let w := {| environ := ∅;
              root := fun p => if String.eqb p "/scan/keygen.exe"
                               then Some (File keygen_small) else None;
              unicode_lower := fun s => s; console := fun _ => None |} in
  match (run_custom_scan w "/scan/keygen.exe" (boot 0 None)).1 with
  | Ok (verdicts, statistics) =>
      map (fun v => v !! "reason"%string) verdicts
      = [Some (VStr "Unusually small executable, Suspicious filename pattern: keygen")]
      /\ statistics !! "suspicious_files"%string = Some (VInt 1)
  | Raise _ => False
  end.
Proof. vm_compute. split; reflexivity. Qed.




(** The same call with standard output closed: the [OSError] of the print
    reaches the caller. *)
Example custom_scan_missing_path_closed_stdout :
  let w := {| environ := ∅; root := fun _ => None;
              unicode_lower := fun s => s;
              console := fun _ => Some OSError |} in
  (run_custom_scan w "/scan/missing" (boot 0 None)).1 = Raise OSError.
Proof. reflexivity. Qed.

End CustomSingleFile.

(** ** The log of file-system accesses *)

Section Emits.
Import Py Fs Spec.
Context {P : event -> Prop}.

Lemma emits_same {A} (m : M A) :
  (forall s, trace (m s).2 = trace s) -> emits P m.
Proof.
  intros H s. exists []. rewrite app_nil_r. split; [apply H | constructor].
Qed.

Lemma emits_ret {A} (a : A) : emits P (ret a).
Proof. now apply emits_same. Qed.

Lemma emits_raise {A} (e : exn) : emits P (raise e : M A).
Proof. now apply emits_same. Qed.

Lemma emits_now : emits P now.
Proof. now apply emits_same. Qed.

Lemma emits_checkpoint : emits P checkpoint.
Proof.
  apply emits_same. intros s. unfold checkpoint.
  now destruct (sigint s) as [[|k]|].
Qed.

Lemma emits_stats_incr (key : string) : emits P (stats_incr key).
Proof.
  apply emits_same. intros s. unfold stats_incr.
  now destruct (stats s !! key) as [[]|].
Qed.

Lemma emits_results_append (d : dict) : emits P (results_append d).
Proof. now apply emits_same. Qed.

Lemma emits_log (ev : event) : P ev -> emits P (log ev).
Proof.
  intros H s. exists [ev]. split; [reflexivity | now constructor].
Qed.

Lemma emits_print (w : world) (line : string) :
  P (Printed line) -> emits P (print w line).
Proof.
  intros H s. unfold print. exists [Printed line].
  split; [now destruct (console w (printed s)) | now constructor].
Qed.

Lemma emits_bind {A B} (m : M A) (k : A -> M B) :
  emits P m -> (forall a, emits P (k a)) -> emits P (bind m k).
Proof.
  intros Hm Hk s. unfold bind.
  destruct (Hm s) as [new1 [Ht1 Hn1]].
  destruct (m s) as [[a | e] s1]; simpl in *.
  - destruct (Hk a s1) as [new2 [Ht2 Hn2]].
    exists (new1 ++ new2). rewrite Ht2, Ht1, app_assoc.
    split; [reflexivity | now apply Forall_app].
  - now exists new1.
Qed.

(** When [m] can only return [a0], only [k a0] matters. *)
Lemma emits_bind_returns {A B} (m : M A) (k : A -> M B) (a0 : A) :
  emits P m -> (forall s a s', m s = (Ok a, s') -> a = a0) ->
  emits P (k a0) -> emits P (bind m k).
Proof.
  intros Hm Hval Hk s. unfold bind.
  destruct (Hm s) as [new1 [Ht1 Hn1]].
  destruct (m s) as [[a | e] s1] eqn:Hms; simpl in *.
  - rewrite (Hval s a s1 Hms).
    destruct (Hk s1) as [new2 [Ht2 Hn2]].
    exists (new1 ++ new2). rewrite Ht2, Ht1, app_assoc.
    split; [reflexivity | now apply Forall_app].
  - now exists new1.
Qed.

Lemma emits_try {A} (m : M A) (h : exn -> option (M A)) :
  emits P m -> (forall e h', h e = Some h' -> emits P h') ->
  emits P (try_except m h).
Proof.
  intros Hm Hh s. unfold try_except.
  destruct (Hm s) as [new1 [Ht1 Hn1]].
  destruct (m s) as [[a | e] s1]; simpl in *.
  - now exists new1.
  - destruct (h e) as [h'|] eqn:He.
    + destruct (Hh e h' He s1) as [new2 [Ht2 Hn2]].
      exists (new1 ++ new2). rewrite Ht2, Ht1, app_assoc.
      split; [reflexivity | now apply Forall_app].
    + now exists new1.
Qed.

Lemma emits_except_Exception {A} (h : M A) (e : exn) (h' : M A) :
  emits P h -> except_Exception h e = Some h' -> emits P h'.
Proof.
  intros Hh. unfold except_Exception.
  destruct (is_Exception e); [|discriminate]. now intros [= <-].
Qed.

End Emits.

Lemma emits_weaken {A} (P Q : Py.event -> Prop) (m : Py.M A) :
  (forall ev, P ev -> Q ev) -> Spec.emits P m -> Spec.emits Q m.
Proof.
  intros HPQ Hm s. destruct (Hm s) as [new [Ht Hn]].
  exists new. split; [exact Ht|].
  eapply Forall_impl; [exact Hn | exact HPQ].
Qed.

(** ** Quick scan: what the traversal touches *)

Section QuickTraversal.
Import Py Fs Spec QuickScan.

#[local] Arguments PyStr.in_list : simpl never.

Lemma quick_scan_directory_unfold (w : world) (directory : string)
      (d : node) (max_depth current_depth : Z) :
  _scan_directory w directory d max_depth current_depth
  = match d with
    | Symlink (Some target) =>
        _scan_directory w directory target max_depth current_depth
    | _ =>
        if max_depth <? current_depth then ret tt
        else
          try_except
            (bind (log (Listed directory))
                  (fun _ =>
                     match d with
                     | Dir (Some entries) =>
                         scan_entries w directory entries
                                      max_depth current_depth
                     | _ => raise OSError
                     end))
            (except_Exception (stats_incr "errors"))
    end.
Proof.
  destruct d as [f | [entries|] | [t|] | r |]; simpl; try reflexivity.
  destruct (max_depth <? current_depth); try reflexivity.
  do 2 f_equal.
  induction entries as [|[name n] rest IH]; simpl; [reflexivity|].
  now rewrite IH.
Qed.

Lemma path_of_cons (top name : string) (names : list string) :
  path_of top (name :: names) = path_of (OsPath.join top name) names.
Proof. reflexivity. Qed.

(** What is allowed below an entry is allowed from its directory, one
    level deeper. *)
Lemma allowed_below (top name : string) (entries : list (string * node))
      (l : option (list (string * node))) (k : Z) (ev : event) :
  In (name, Dir l) entries ->
  allowed (OsPath.join top name) (Dir l) (k - 1) ev ->
  allowed top (Dir (Some entries)) k ev.
Proof.
  intros Hin. destruct ev as [p | p | p | p | line]; simpl; try tauto.
  - intros (names & n & -> & Hch & Hlen & Hdir).
    exists (name :: names), n. rewrite path_of_cons.
    split; [reflexivity|]. split; [now apply chain_step with (Dir l)|].
    split; [simpl length; lia|].
    right. destruct Hdir as [-> | Hdir]; [|exact Hdir].
    inversion Hch; subst. now exists l.
  - intros (names & n & -> & Hch & Hne & Hlen).
    exists (name :: names), n. rewrite path_of_cons.
    split; [reflexivity|]. split; [now apply chain_step with (Dir l)|].
    split; [discriminate | simpl length; lia].
Qed.

Lemma is_symlink_emits (P : event -> Prop) (path : string) (n : node) :
  P (Examined path) -> emits P (is_symlink path n).
Proof.
  intros Hex. unfold is_symlink.
  apply emits_bind; [now apply emits_log | intros _].
  destruct n as [f | l | t | r |]; (apply emits_ret || apply emits_raise).
Qed.

Lemma is_symlink_value (path : string) (n : node) (s : state) (b : bool)
      (s' : state) :
  is_symlink path n s = (Ok b, s') ->
  b = match n with Symlink _ => true | _ => false end.
Proof.
  unfold is_symlink, bind, log, ret, raise. simpl.
  destruct n as [f | l | t | r |]; intros H; inversion H; reflexivity.
Qed.

Lemma is_file_emits (P : event -> Prop) (path : string) (n : node) :
  emits P (is_file path n).
Proof.
  unfold is_file.
  destruct n as [f | l | t | r |]; (apply emits_ret || apply emits_raise).
Qed.

Lemma is_file_value (path : string) (n : node) (s : state) (b : bool)
      (s' : state) :
  is_file path n s = (Ok b, s') ->
  b = match resolve n with Some (File _) => true | _ => false end.
Proof.
  unfold is_file, ret, raise.
  destruct n as [f | l | t | r |]; intros H; inversion H; reflexivity.
Qed.

Lemma is_dir_emits (P : event -> Prop) (path : string) (n : node) :
  emits P (is_dir path n).
Proof.
  unfold is_dir.
  destruct n as [f | l | t | r |]; (apply emits_ret || apply emits_raise).
Qed.

Lemma is_dir_value (path : string) (n : node) (s : state) (b : bool)
      (s' : state) :
  is_dir path n s = (Ok b, s') ->
  b = match resolve n with Some (Dir _) => true | _ => false end.
Proof.
  unfold is_dir, ret, raise.
  destruct n as [f | l | t | r |]; intros H; inversion H; reflexivity.
Qed.

Lemma quick_scan_entry_emits (P : event -> Prop) (w : world)
      (directory name : string) (n : node) (recurse : M unit) :
  P (Examined (OsPath.join directory name)) ->
  (forall l, n = Dir l -> emits P recurse) ->
  emits P (scan_entry w directory name n recurse).
Proof.
  intros Hex Hrec. unfold scan_entry.
  apply emits_bind; [apply emits_checkpoint | intros _].
  eapply emits_bind_returns;
    [now apply is_symlink_emits | apply is_symlink_value |].
  destruct n as [f | l | t | r |]; cbv iota; try apply emits_ret;
    (eapply emits_bind_returns;
     [apply is_file_emits | apply is_file_value | cbn [resolve]]).
  - (* a regular file *)
    apply emits_bind; [apply emits_stats_incr | intros _].
    destruct (PyStr.in_list _ _); [|apply emits_ret].
    apply emits_bind; [apply emits_now | intros t].
    apply emits_bind; [apply emits_results_append | intros _].
    apply emits_stats_incr.
  - (* a directory *)
    eapply emits_bind_returns;
      [apply is_dir_emits | apply is_dir_value | cbn [resolve]].
    now apply (Hrec l).
  - (* an entry that cannot be examined *)
    eapply emits_bind_returns;
      [apply is_dir_emits | apply is_dir_value | cbn [resolve]].
    apply emits_ret.
Qed.

Lemma quick_scan_entries_emits (w : world) (top : string)
      (entries : list (string * node)) (max_depth current_depth : Z) :
  max_depth >= current_depth ->
  Forall (fun e =>
            forall top' cd',
              emits (allowed top' e.2 (max_depth - cd'))
                    (_scan_directory w top' e.2 max_depth cd'))
         entries ->
  forall es,
    (forall e, In e es -> In e entries) ->
    emits (allowed top (Dir (Some entries)) (max_depth - current_depth))
          (scan_entries w top es max_depth current_depth).
Proof.
  intros Hdepth IH es. induction es as [|[name n] rest IHes]; intros Hsub.
  - apply emits_ret.
  - cbn [scan_entries].
    assert (Hin : In (name, n) entries) by (apply Hsub; now left).
    apply emits_bind; [|intros _; apply IHes; intros e He; apply Hsub;
                        now right].
    apply emits_try.
    + apply quick_scan_entry_emits.
      * simpl. exists [name], n. split; [reflexivity|].
        split; [apply chain_step with n; [exact Hin | constructor]|].
        split; [discriminate | simpl length; lia].
      * intros l ->.
        eapply emits_weaken;
          [intros ev; apply (allowed_below top name entries l); exact Hin|].
        rewrite List.Forall_forall in IH.
        replace (max_depth - current_depth - 1)
          with (max_depth - (current_depth + 1)) by lia.
        apply (IH (name, Dir l) Hin).
    + intros e h'. apply emits_except_Exception. apply emits_stats_incr.
Qed.

Lemma quick_scan_directory_emits (w : world) (d : node) :
  forall (top : string) (max_depth current_depth : Z),
    emits (allowed top d (max_depth - current_depth))
          (_scan_directory w top d max_depth current_depth).
Proof.
  induction d as [f | | entries IH | | t IH | r |] using node_nested_ind;
    intros top max_depth current_depth;
    rewrite quick_scan_directory_unfold; try exact (IH top _ _);
    (destruct (Z.ltb_spec max_depth current_depth) as [Hdeep | Hdepth];
     [apply emits_ret|]);
    (apply emits_try;
     [|intros e h'; apply emits_except_Exception; apply emits_stats_incr]);
    (apply emits_bind;
     [apply emits_log; simpl; eexists [], _;
      split; [reflexivity|]; split; [apply chain_here|];
      split; [simpl length; lia | now left]
     | intros _]);
    try apply emits_raise.
  apply quick_scan_entries_emits; [lia | | auto].
  eapply Forall_impl; [exact IH|]. intros e He top' cd'. apply He.
Qed.

End QuickTraversal.

(** ** The signature scanner's walk *)

Section SignatureWalk.
Import Py Fs Spec SignatureDetection.

Lemma walk_unfold (top : string) (entries : list (string * node)) :
  walk top (Dir (Some entries))
  = (top,
     List.filter (fun e => walk_is_dir e.2) entries,
     List.filter (fun e => negb (walk_is_dir e.2)) entries)
    :: walk_below top entries.
Proof.
  simpl. f_equal. unfold walk_below.
  induction entries as [|[name n] rest IH]; simpl; [reflexivity|].
  now rewrite IH.
Qed.

(** A root that is a link is walked as what it leads to. *)
Lemma walk_follow (top : string) (d : node) :
  walk top d = walk top (follow d).
Proof.
  induction d as [f | | entries IH | | t IH | r |] using node_nested_ind;
    try reflexivity.
  exact IH.
Qed.

Lemma walk_sound (d : node) :
  forall top x,
    In x (walk top d) ->
    exists names entries,
      chain (follow d) names (Dir (Some entries))
      /\ x = (path_of top names,
              List.filter (fun e => walk_is_dir e.2) entries,
              List.filter (fun e => negb (walk_is_dir e.2)) entries).
Proof.
  induction d as [f | | entries IH | | t IH | r |] using node_nested_ind;
    intros top x Hx; try (simpl in Hx; contradiction);
    try exact (IH top x Hx).
  rewrite walk_unfold in Hx. destruct Hx as [<- | Hx].
  - exists [], entries. split; [apply chain_here | reflexivity].
  - unfold walk_below in Hx. apply in_flat_map in Hx as [[name n] [Hin Hx]].
    rewrite List.Forall_forall in IH. specialize (IH _ Hin). simpl in IH.
    destruct n as [f | l | t | r |]; try contradiction.
    destruct (IH _ _ Hx) as (names & entries' & Hch & ->).
    exists (name :: names), entries'.
    split; [now apply chain_step with (Dir l) | reflexivity].
Qed.

Lemma walk_complete_from (d : node) (names : list string)
      (entries : list (string * node)) :
  chain d names (Dir (Some entries)) ->
  forall top,
    In (path_of top names,
        List.filter (fun e => walk_is_dir e.2) entries,
        List.filter (fun e => negb (walk_is_dir e.2)) entries)
       (walk top d).
Proof.
  remember (Dir (Some entries)) as target eqn:Ht.
  intros Hch. induction Hch as [d | es name child names n Hin Hch IH];
    intros top.
  - subst d. rewrite walk_unfold. now left.
  - specialize (IH Ht). rewrite walk_unfold. right.
    unfold walk_below. apply in_flat_map. exists (name, child).
    split; [exact Hin|].
    assert (Hdir : exists l, child = Dir l).
    { inversion Hch; subst; eauto. }
    destruct Hdir as [l ->]. apply IH.
Qed.

(** What [os.walk] yields: every directory that can be reached from what
    the root path leads to through listable directories, at any depth and
    never through a link, with its entries split into directories and the
    rest. *)
Lemma walk_spec (top : string) (d : node)
      (x : string * list (string * node) * list (string * node)) :
  In x (walk top d)
  <-> exists names entries,
        chain (follow d) names (Dir (Some entries))
        /\ x = (path_of top names,
                List.filter (fun e => walk_is_dir e.2) entries,
                List.filter (fun e => negb (walk_is_dir e.2)) entries).
Proof.
  split.
  - apply walk_sound.
  - intros (names & entries & Hch & ->). rewrite walk_follow.
    now apply walk_complete_from.
Qed.

Lemma emits_new_results (P : event -> Prop) : emits P new_results.
Proof. now apply emits_same. Qed.

Lemma emits_get_results (P : event -> Prop) : emits P get_results.
Proof. now apply emits_same. Qed.

Lemma calculate_file_hash_emits (P : event -> Prop) (w : world)
      (file_path : string) (n : node) :
  P (Opened file_path) -> (forall line, P (Printed line)) ->
  emits P (calculate_file_hash w file_path n).
Proof.
  intros Hopen Hprint. unfold calculate_file_hash. apply emits_try.
  - apply emits_bind; [now apply emits_log | intros _].
    destruct (read_md5 n); (apply emits_ret || apply emits_raise).
  - intros e h'. apply emits_except_Exception.
    apply emits_bind; [apply emits_print, Hprint | intros _].
    apply emits_ret.
Qed.

Lemma scan_file_emits (P : event -> Prop) (w : world)
      (file_path : string) (n : node) :
  P (Opened file_path) -> (forall line, P (Printed line)) ->
  emits P (scan_file w file_path n).
Proof.
  intros Hopen Hprint. unfold scan_file.
  apply emits_bind; [now apply calculate_file_hash_emits | intros r].
  destruct r as [h | |]; try apply emits_ret.
  destruct (String.eqb h ""); [apply emits_ret|].
  destruct (signature_db !! h); apply emits_ret.
Qed.

Lemma scan_files_emits (P : event -> Prop) (w : world) (root : string)
      (files : list (string * node)) :
  (forall file n, In (file, n) files -> P (Opened (OsPath.join root file))) ->
  (forall line, P (Printed line)) ->
  emits P (scan_files w root files).
Proof.
  intros Hopen Hprint. induction files as [|[file n] rest IH].
  - apply emits_ret.
  - cbn [scan_files].
    apply emits_bind; [apply emits_checkpoint | intros _].
    apply emits_bind.
    + apply scan_file_emits; [apply (Hopen file n); now left | exact Hprint].
    + intros [result|]; [|apply emits_ret].
      apply emits_bind; [apply emits_results_append | intros _].
      apply IH. intros file' n' Hin. apply (Hopen file' n'). now right.
Qed.

Lemma scan_walk_emits (P : event -> Prop) (w : world)
      (walked : list (string * list (string * node)
                      * list (string * node))) :
  (forall root dirs files file n,
      In (root, dirs, files) walked -> In (file, n) files ->
      P (Opened (OsPath.join root file))) ->
  (forall line, P (Printed line)) ->
  emits P (scan_walk w walked).
Proof.
  intros Hopen Hprint. induction walked as [|[[root dirs] files] rest IH].
  - apply emits_ret.
  - cbn [scan_walk].
    apply emits_bind; [apply emits_checkpoint | intros _].
    apply emits_bind.
    + apply scan_files_emits; [|exact Hprint].
      intros file n Hin. apply (Hopen root dirs files file n); [now left|].
      exact Hin.
    + intros [|]; [|apply emits_ret].
      apply IH. intros root' dirs' files' file n Hw Hin.
      apply (Hopen root' dirs' files' file n); [now right | exact Hin].
Qed.

(** The signature scanner opens only what the walk yields as files. *)
Lemma signature_scan_directory_emits (w : world) (top : string) (d : node) :
  emits (walk_allowed top d) (scan_directory w top d).
Proof.
  unfold scan_directory.
  apply emits_bind; [apply emits_new_results | intros _].
  apply emits_bind.
  - apply emits_try.
    + apply scan_walk_emits; [|intros line; exact I].
      intros root dirs files file n Hw Hin. simpl. exists n.
      apply walk_sound in Hw as (names & entries & Hch & Heq).
      injection Heq as -> -> ->.
      apply filter_In in Hin as [Hin Hnd]. simpl in Hnd.
      exists names, entries, file.
      repeat split; try assumption. now apply negb_true_iff.
    + intros e h'. apply emits_except_Exception.
      apply emits_bind; [now apply emits_print | intros _].
      apply emits_ret.
  - intros [|]; [|apply emits_ret].
    apply emits_bind; [apply emits_get_results | intros results].
    apply emits_ret.
Qed.

End SignatureWalk.

(** ** A directory without sub-directories *)

Section FlatDirectory.
Import Py Fs Spec Scenarios.

#[local] Arguments PyStr.in_list : simpl never.
#[local] Arguments PyStr.lower : simpl never.
#[local] Arguments OsPath.join : simpl never.
#[local] Arguments OsPath.splitext_ext : simpl never.
#[local] Arguments dict_of : simpl never.
#[local] Arguments Z.mul : simpl never.
#[local] Arguments Z.ltb : simpl never.

Lemma quick_file_entry (w : world) (directory name : string)
      (f : file_info) (recurse : M unit) (s : state) (a b e : Z) :
  counters s a b e ->
  exists s' b',
    try_except (QuickScan.scan_entry w directory name (File f) recurse)
               (except_Exception (stats_incr "errors")) s = (Ok tt, s')
    /\ counters s' (a + 1) b' e.
Proof.
  intros (Hsig & Ha & Hb & He).
  unfold QuickScan.scan_entry, is_symlink, is_file, is_dir, checkpoint, log,
    try_except, bind, ret.
  rewrite Hsig. simpl. unfold stats_incr at 1. simpl. rewrite Ha.
  destruct (PyStr.in_list _ _); simpl.
  - unfold stats_incr, now, results_append. simpl.
    rewrite lookup_insert_ne by discriminate. rewrite Hb.
    eexists _, (b + 1). split; [reflexivity|].
    unfold counters. simpl. repeat split; by simplify_map_eq.
  - eexists _, b. split; [reflexivity|].
    unfold counters. simpl. repeat split; by simplify_map_eq.
Qed.

Lemma quick_faulty_entry (w : world) (directory name : string)
      (recurse : M unit) (s : state) (a b e : Z) :
  counters s a b e ->
  exists s',
    try_except (QuickScan.scan_entry w directory name Faulty recurse)
               (except_Exception (stats_incr "errors")) s = (Ok tt, s')
    /\ counters s' a b (e + 1).
Proof.
  intros (Hsig & Ha & Hb & He).
  unfold QuickScan.scan_entry, is_symlink, checkpoint, log, raise,
    try_except, bind.
  rewrite Hsig. simpl. unfold stats_incr. simpl. rewrite He.
  eexists. split; [reflexivity|].
  unfold counters. simpl. repeat split; by simplify_map_eq.
Qed.

Lemma quick_flat_entries (w : world) (directory : string)
      (max_depth current_depth : Z) (entries : list (string * node)) :
  Forall (fun e => is_regular e || is_faulty e = true) entries ->
  forall (s : state) (a b e : Z),
    counters s a b e ->
    exists s' b',
      QuickScan.scan_entries w directory entries max_depth current_depth s
      = (Ok tt, s')
      /\ counters s'
           (a + Z.of_nat (length (List.filter is_regular entries))) b'
           (e + Z.of_nat (length (List.filter is_faulty entries))).
Proof.
  induction 1 as [|[name n] rest Hn Hrest IH]; intros s a b e Hc.
  - exists s, b. split; [reflexivity|]. simpl. now rewrite !Z.add_0_r.
  - cbn [QuickScan.scan_entries].
    destruct n as [f | l | t | r |]; try discriminate Hn.
    + destruct (quick_file_entry w directory name f
                  (QuickScan._scan_directory w (OsPath.join directory name)
                     (File f) max_depth (current_depth + 1)) s a b e Hc)
        as (s1 & b1 & Hrun & Hc1).
      rewrite (bind_ok _ _ _ _ _ Hrun).
      destruct (IH s1 (a + 1) b1 e Hc1) as (s2 & b2 & Hrun2 & Hc2).
      exists s2, b2. split; [exact Hrun2|].
      cbn [List.filter is_regular is_faulty snd]. simpl length.
      replace (a + Z.of_nat (S (length (List.filter is_regular rest))))
        with (a + 1 + Z.of_nat (length (List.filter is_regular rest)))
        by lia.
      exact Hc2.
    + destruct (quick_faulty_entry w directory name
                  (QuickScan._scan_directory w (OsPath.join directory name)
                     Faulty max_depth (current_depth + 1)) s a b e Hc)
        as (s1 & Hrun & Hc1).
      rewrite (bind_ok _ _ _ _ _ Hrun).
      destruct (IH s1 a b (e + 1) Hc1) as (s2 & b2 & Hrun2 & Hc2).
      exists s2, b2. split; [exact Hrun2|].
      cbn [List.filter is_regular is_faulty snd]. simpl length.
      replace (e + Z.of_nat (S (length (List.filter is_faulty rest))))
        with (e + 1 + Z.of_nat (length (List.filter is_faulty rest)))
        by lia.
      exact Hc2.
Qed.

Lemma deep_counters_frame (s s' : state) (a b c e : Z) :
  sigint s' = sigint s -> stats s' = stats s ->
  deep_counters s a b c e -> deep_counters s' a b c e.
Proof.
  unfold deep_counters, counters. intros -> ->. tauto.
Qed.

Lemma deep_count_error (s : state) (a b c e : Z) :
  deep_counters s a b c e ->
  exists s', stats_incr "errors" s = (Ok tt, s')
             /\ deep_counters s' a b c (e + 1).
Proof.
  intros [(Hsig & Ha & Hb & He) Hc].
  rewrite (stats_incr_ok "errors" e) by exact He.
  eexists. split; [reflexivity|].
  unfold deep_counters, counters. simpl.
  repeat split; by simplify_map_eq.
Qed.

(** Whatever the file, [_analyze_file] returns, and it leaves the count of
    scanned files alone. *)
Lemma deep_analyze_file_counters (w : world) (file_path : string)
      (f : file_info) (s : state) (a b c e : Z) :
  deep_counters s a b c e ->
  exists s' c' e',
    DeepScan._analyze_file w file_path (File f) s = (Ok tt, s')
    /\ deep_counters s' a b c' e'.
Proof.
  intros Hc.
  destruct (size f) as [sz|] eqn:Hsz.
  - destruct (Z.le_gt_cases sz (100 * 1024 * 1024)) as [Hsmall | Hbig].
    + destruct (List.in_dec String.string_dec (computed_md5 f)
                            DeepScan.KNOWN_MALWARE_HASHES) as [Hin | Hin].
      * destruct Hc as [(Hsig & Ha & Hb & He) Hct].
        rewrite (deep_body_known w file_path f sz c s Hsz Hsmall Hin Hct).
        eexists _, (c + 1), e. split; [reflexivity|].
        unfold deep_counters, counters. simpl.
        repeat split; by simplify_map_eq.
      * pose proof (deep_body_unknown w file_path f sz s Hsz Hsmall Hin)
          as Hbody.
        unfold DeepScan._analyze_file.
        rewrite (try_caught _ (stats_incr "errors") _ _ _ _ Hbody)
          by reflexivity.
        destruct (deep_count_error (hashed file_path s) a b c e)
          as (s' & Hrun & Hc'); [revert Hc; now apply deep_counters_frame|].
        eauto.
    + rewrite (deep_large_file_skipped w file_path f sz s Hsz)
        by lia.
      eexists _, c, e. split; [reflexivity|].
      revert Hc. now apply deep_counters_frame.
  - assert (Hbody : DeepScan.analyze_body w file_path (File f) s
                    = (Raise OSError,
                       set_trace (fun t => t ++ [Sized file_path]) s)).
    { unfold DeepScan.analyze_body, getsize, log, raise, bind. simpl.
      now rewrite Hsz. }
    unfold DeepScan._analyze_file.
    rewrite (try_caught _ (stats_incr "errors") _ _ _ _ Hbody)
      by reflexivity.
    destruct (deep_count_error
                (set_trace (fun t => t ++ [Sized file_path]) s) a b c e)
      as (s' & Hrun & Hc'); [revert Hc; now apply deep_counters_frame|].
    eauto.
Qed.

Lemma deep_file_entry (w : world) (directory name : string) (f : file_info)
      (recurse : M unit) (s : state) (a b c e : Z) :
  deep_counters s a b c e ->
  exists s' c' e',
    try_except (DeepScan.scan_entry w directory name (File f) recurse)
               (except_Exception (stats_incr "errors")) s = (Ok tt, s')
    /\ deep_counters s' (a + 1) b c' e'.
Proof.
  intros [(Hsig & Ha & Hb & He) Hc].
  unfold DeepScan.scan_entry, is_symlink, is_file, is_dir, checkpoint, log,
    try_except, bind, ret.
  rewrite Hsig. simpl. unfold stats_incr at 1. simpl. rewrite Ha.
  destruct (PyStr.in_list _ _).
  - match goal with |- context [DeepScan._analyze_file w ?p _ ?st] =>
      destruct (deep_analyze_file_counters w p f st (a + 1) b c e)
        as (s' & c' & e' & Hrun & Hc')
    end.
    { unfold deep_counters, counters. simpl.
      repeat split; by simplify_map_eq. }
    rewrite Hrun. eauto.
  - eexists _, c, e. split; [reflexivity|].
    unfold deep_counters, counters. simpl.
    repeat split; by simplify_map_eq.
Qed.

Lemma deep_faulty_entry (w : world) (directory name : string)
      (recurse : M unit) (s : state) (a b c e : Z) :
  deep_counters s a b c e ->
  exists s',
    try_except (DeepScan.scan_entry w directory name Faulty recurse)
               (except_Exception (stats_incr "errors")) s = (Ok tt, s')
    /\ deep_counters s' a b c (e + 1).
Proof.
  intros [(Hsig & Ha & Hb & He) Hc].
  unfold DeepScan.scan_entry, is_symlink, checkpoint, log, raise,
    try_except, bind.
  rewrite Hsig. simpl. unfold stats_incr. simpl. rewrite He.
  eexists. split; [reflexivity|].
  unfold deep_counters, counters. simpl. repeat split; by simplify_map_eq.
Qed.

Lemma deep_flat_entries (w : world) (directory : string)
      (max_depth current_depth : Z) (entries : list (string * node)) :
  Forall (fun e => is_regular e || is_faulty e = true) entries ->
  forall (s : state) (a b c e : Z),
    deep_counters s a b c e ->
    exists s' c' e',
      DeepScan.scan_entries w directory entries max_depth current_depth s
      = (Ok tt, s')
      /\ deep_counters s'
           (a + Z.of_nat (length (List.filter is_regular entries)))
           b c' e'.
Proof.
  induction 1 as [|[name n] rest Hn Hrest IH]; intros s a b c e Hc.
  - exists s, c, e. split; [reflexivity|]. simpl. now rewrite Z.add_0_r.
  - cbn [DeepScan.scan_entries].
    destruct n as [f | l | t | r |]; try discriminate Hn.
    + destruct (deep_file_entry w directory name f
                  (DeepScan._scan_directory w (OsPath.join directory name)
                     (File f) max_depth (current_depth + 1)) s a b c e Hc)
        as (s1 & c1 & e1 & Hrun & Hc1).
      rewrite (bind_ok _ _ _ _ _ Hrun).
      destruct (IH s1 (a + 1) b c1 e1 Hc1) as (s2 & c2 & e2 & Hrun2 & Hc2).
      exists s2, c2, e2. split; [exact Hrun2|].
      cbn [List.filter is_regular snd]. simpl length.
      replace (a + Z.of_nat (S (length (List.filter is_regular rest))))
        with (a + 1 + Z.of_nat (length (List.filter is_regular rest)))
        by lia.
      exact Hc2.
    + destruct (deep_faulty_entry w directory name
                  (DeepScan._scan_directory w (OsPath.join directory name)
                     Faulty max_depth (current_depth + 1)) s a b c e Hc)
        as (s1 & Hrun & Hc1).
      rewrite (bind_ok _ _ _ _ _ Hrun).
      destruct (IH s1 a b c (e + 1) Hc1) as (s2 & c2 & e2 & Hrun2 & Hc2).
      exists s2, c2, e2. split; [exact Hrun2|].
      cbn [List.filter is_regular snd]. exact Hc2.
Qed.

(** The scan of a directory that can be listed, in terms of the loop over
    its entries. *)
Lemma quick_scan_listed (w : world) (directory : string)
      (entries : list (string * node)) (max_depth current_depth : Z) :
  QuickScan._scan_directory w directory (Dir (Some entries))
                            max_depth current_depth
  = if max_depth <? current_depth then ret tt
    else
      try_except
        (bind (log (Listed directory))
              (fun _ => QuickScan.scan_entries w directory entries
                                               max_depth current_depth))
        (except_Exception (stats_incr "errors")).
Proof.
  simpl. destruct (max_depth <? current_depth); [reflexivity|].
  do 2 f_equal.
  induction entries as [|[name n] rest IH]; simpl; [reflexivity|].
  now rewrite IH.
Qed.

Lemma deep_scan_listed (w : world) (directory : string)
      (entries : list (string * node)) (max_depth current_depth : Z) :
  DeepScan._scan_directory w directory (Dir (Some entries))
                           max_depth current_depth
  = if max_depth <? current_depth then ret tt
    else
      try_except
        (bind (log (Listed directory))
              (fun _ => DeepScan.scan_entries w directory entries
                                              max_depth current_depth))
        (except_Exception (stats_incr "errors")).
Proof.
  simpl. destruct (max_depth <? current_depth); [reflexivity|].
  do 2 f_equal.
  induction entries as [|[name n] rest IH]; simpl; [reflexivity|].
  now rewrite IH.
Qed.

(** C8 (amended): scanning a directory whose entries are regular files,
    readable or not, and entries that cannot be examined completes without
    raising in the quick and in the deep scanner.  Every regular file is
    counted as scanned when it is met, before anything is opened (ten for
    one unreadable and nine readable files).  The quick scanner, which opens
    no file, counts as errors exactly the entries whose examination raised
    (none for ten regular files). *)
Theorem flat_directory_counts_every_file
        (directory : string) (entries : list (string * node))
        (max_depth t0 t : Z) :
  0 <= max_depth ->
  Forall (fun e => is_regular e || is_faulty e = true) entries ->
  (forall w : world,
      let out := QuickScan._scan_directory
                   w directory (Dir (Some entries)) max_depth 0
                   (started (QuickScan.initial_stats t) t0) in
      out.1 = Ok tt
      /\ stats out.2 !! "files_scanned"%string
         = Some (VInt (Z.of_nat (length (List.filter is_regular entries))))
      /\ stats out.2 !! "errors"%string
         = Some (VInt (Z.of_nat (length (List.filter is_faulty entries)))))
  /\ (forall w : world,
         let out := DeepScan._scan_directory
                      w directory (Dir (Some entries)) max_depth 0
                      (started (DeepScan.initial_stats t) t0) in
         out.1 = Ok tt
         /\ stats out.2 !! "files_scanned"%string
            = Some (VInt (Z.of_nat
                            (length (List.filter is_regular entries))))).
Proof.
  intros Hdepth Hfiles. split.
  - intros w. rewrite quick_scan_listed.
    destruct (Z.ltb_spec max_depth 0) as [Hneg | _]; [lia|].
    destruct (quick_flat_entries w directory max_depth 0 entries Hfiles
                (set_trace (fun tr => tr ++ [Listed directory])
                           (started (QuickScan.initial_stats t) t0))
                0 0 0)
      as (s' & b' & Hrun & (Hsig & Ha & Hb & He)).
    { repeat split; reflexivity. }
    unfold try_except, bind, log. simpl. rewrite Hrun. simpl.
    rewrite Z.add_0_l in Ha, He. auto.
  - intros w. rewrite deep_scan_listed.
    destruct (Z.ltb_spec max_depth 0) as [Hneg | _]; [lia|].
    destruct (deep_flat_entries w directory max_depth 0 entries Hfiles
                (set_trace (fun tr => tr ++ [Listed directory])
                           (started (DeepScan.initial_stats t) t0))
                0 0 0 0)
      as (s' & c' & e' & Hrun & [(Hsig & Ha & Hb & He) Hc]).
    { repeat split; reflexivity. }
    unfold try_except, bind, log. simpl. rewrite Hrun. simpl.
    rewrite Z.add_0_l in Ha. auto.
Qed.

Lemma flat_directory_counts_every_file_witness :
  (forall w : world,
      let out := QuickScan._scan_directory
                   w "/home/user/Downloads" (Dir (Some ten_files)) 2 0
                   (started (QuickScan.initial_stats 1) 2) in
      out.1 = Ok tt
      /\ stats out.2 !! "files_scanned"%string
         = Some (VInt (Z.of_nat (length (List.filter is_regular ten_files))))
      /\ stats out.2 !! "errors"%string
         = Some (VInt (Z.of_nat (length (List.filter is_faulty ten_files)))))
  /\ (forall w : world,
         let out := DeepScan._scan_directory
                      w "/home/user/Downloads" (Dir (Some ten_files)) 2 0
                      (started (DeepScan.initial_stats 1) 2) in
         out.1 = Ok tt
         /\ stats out.2 !! "files_scanned"%string
            = Some (VInt (Z.of_nat
                            (length (List.filter is_regular ten_files))))).
Proof.
  apply (flat_directory_counts_every_file
           "/home/user/Downloads" ten_files 2 2 1).
  - lia.
  - unfold ten_files. repeat constructor.
Defined.

(** C8 (as stated) fails: with one unreadable and nine readable files the
    scanners count ten files, not nine, and the quick scanner counts no
    error. *)
Lemma unreadable_file_is_counted_as_scanned :
  length (List.filter (fun e => match e.2 with
                                | File f => readable f
                                | _ => false
                                end) ten_files) = 9%nat
  /\ length (List.filter (fun e => match e.2 with
                                   | File f => negb (readable f)
                                   | _ => false
                                   end) ten_files) = 1%nat
  /\ (let out := QuickScan._scan_directory
                   empty_world "/home/user/Downloads"
                   (Dir (Some ten_files)) 2 0
                   (started (QuickScan.initial_stats 1) 2) in
      out.1 = Ok tt
      /\ stats out.2 !! "files_scanned"%string = Some (VInt 10)
      /\ stats out.2 !! "errors"%string = Some (VInt 0))
  /\ (let out := DeepScan._scan_directory
                   empty_world "/home/user/Downloads"
                   (Dir (Some ten_files)) 5 0
                   (started (DeepScan.initial_stats 1) 2) in
      out.1 = Ok tt
      /\ stats out.2 !! "files_scanned"%string = Some (VInt 10)).
Proof. vm_compute. repeat split; reflexivity. Qed.

(** Only an entry that cannot even be examined is counted as an error and
    not as scanned. *)
Example unexaminable_entry_is_an_error :
  let entries := ("gone.dat"%string, Faulty) :: tl ten_files in
  let out := QuickScan._scan_directory
               empty_world "/home/user/Downloads" (Dir (Some entries)) 2 0
               (started (QuickScan.initial_stats 1) 2) in
  out.1 = Ok tt
  /\ stats out.2 !! "files_scanned"%string = Some (VInt 9)
  /\ stats out.2 !! "errors"%string = Some (VInt 1).
Proof. vm_compute. repeat split; reflexivity. Qed.

End FlatDirectory.

(** ** Bounds of the traversals *)

Section TraversalBounds.
Import Py Fs Spec Scenarios.

(** C9 (as stated) fails: with max_depth = 2 the quick scan examines, and
    counts, a file three levels below the root; the signature scanner, which
    has no depth limit, hashes a file four levels below it. *)
Lemma traversal_goes_below_max_depth :
  (let out := QuickScan._scan_directory empty_world "/r" deep_tree 2 0
                (started (QuickScan.initial_stats 1) 2) in
   exists names,
     2 < Z.of_nat (length names)
     /\ In (Examined (path_of "/r" names)) (trace out.2)
     /\ stats out.2 !! "files_scanned"%string = Some (VInt 1))
  /\ (let out := SignatureDetection.scan_directory
                   empty_world "/r" deep_tree (boot 0 None) in
      let names := ["a"; "b"; "c"; "g.exe"]%string in
      2 < Z.of_nat (length names)
      /\ In (Opened (path_of "/r" names)) (trace out.2)
      /\ match out.1 with
         | Ok (Some results) =>
             In (Some (VStr (path_of "/r" names)))
                (map (fun r => r !! "file_path"%string) results)
         | _ => False
         end).
Proof.
  split.
  - exists ["a"; "b"; "f.exe"]%string.
    split; [simpl; lia|]. split; [|reflexivity].
    vm_compute. do 5 right. left. reflexivity.
  - cbv zeta. split; [simpl; lia|].
    split; vm_compute; right; left; reflexivity.
Qed.

(** C9 (amended): whatever the root path names (a link included: it is
    opened through the link) the quick scan lists only directories at most
    max_depth levels below its root and examines only entries at most
    max_depth + 1 levels below it (the entries of a directory at the limit
    are still examined and its files counted), all of them reached through
    listable directories, never through a link below the root.  The
    signature scanner opens only entries that are not directories, of
    directories reached the same way, and it has no depth limit: its walk
    yields every directory reached from the root through listable
    directories, never through a link below the root, with those of its
    entries that are not directories as the files to open. *)
Theorem traversal_stays_within_bounds :
  (forall (w : world) (top : string) (d : node) (max_depth : Z) (s : state),
      exists new,
        trace (QuickScan._scan_directory w top d max_depth 0 s).2
        = trace s ++ new
        /\ Forall (allowed top d max_depth) new)
  /\ (forall (w : world) (top : string) (d : node) (s : state),
         exists new,
           trace (SignatureDetection.scan_directory w top d s).2
           = trace s ++ new
           /\ Forall (walk_allowed top d) new)
  /\ (forall (top : string) (d : node)
             (x : string * list (string * node) * list (string * node)),
         In x (SignatureDetection.walk top d)
         <-> exists names entries,
               chain (follow d) names (Dir (Some entries))
               /\ x = (path_of top names,
                       List.filter
                         (fun e => SignatureDetection.walk_is_dir e.2)
                         entries,
                       List.filter
                         (fun e => negb (SignatureDetection.walk_is_dir e.2))
                         entries)).
Proof.
  split; [|split].
  - intros w top d max_depth s.
    pose proof (quick_scan_directory_emits w d top max_depth 0) as H.
    rewrite Z.sub_0_r in H. apply H.
  - intros w top d s. apply signature_scan_directory_emits.
  - apply walk_spec.
Qed.

(** A link to a directory is examined and skipped: nothing below it is
    touched, by either scanner. *)
Example link_is_not_followed :
  let linked := Dir (Some [("inner.exe", File plain_file)])%string in
  let tree := Dir (Some [("link", Symlink (Some linked));
                         ("x.exe", File plain_file)])%string in
  trace (QuickScan._scan_directory empty_world "/r" tree 2 0
           (started (QuickScan.initial_stats 1) 2)).2
  = [Listed "/r"; Examined "/r/link"; Examined "/r/x.exe"]%string
  /\ trace (SignatureDetection.scan_directory empty_world "/r" tree
              (boot 0 None)).2
     = [Opened "/r/x.exe"]%string.
Proof. vm_compute. split; reflexivity. Qed.

(** A root that is itself a link to a directory is opened through the
    link, by both scanners. *)
Example linked_root_is_opened :
  let linked := Dir (Some [("inner.exe", File plain_file)])%string in
  trace (QuickScan._scan_directory empty_world "/r" (Symlink (Some linked))
           2 0 (started (QuickScan.initial_stats 1) 2)).2
  = [Listed "/r"; Examined "/r/inner.exe"]%string
  /\ trace (SignatureDetection.scan_directory empty_world "/r"
              (Symlink (Some linked)) (boot 0 None)).2
     = [Opened "/r/inner.exe"]%string.
Proof. vm_compute. split; reflexivity. Qed.

(** A pipe that nobody writes to: the signature scanner opens it and never
    returns.  A socket, which cannot be opened, is reported as an error; a
    device that reads as empty as clean. *)
Example signature_scan_of_special_files :
  let run tree :=
    (SignatureDetection.scan_directory empty_world "/r" tree
       (boot 0 None)).1 in
  run (Dir (Some [("pipe", Special Endless)]))%string = Ok None
  /\ match run (Dir (Some
                  [("socket", Special Refused);
                   ("null", Special (Yields
                      "d41d8cd98f00b204e9800998ecf8427e"))]))%string with
     | Ok (Some results) =>
         map (fun r => r !! "status"%string) results
         = [Some (VStr "error"); Some (VStr "clean")]
     | _ => False
     end.
Proof. vm_compute. split; reflexivity. Qed.

End TraversalBounds.

(** ** Interrupting a scan *)

Section Interrupt.
Import Py Fs Spec Scenarios.

(** Whatever the machine, a Ctrl-C that is pending when the quick scan
    starts walking leaves [run_quick_scan] as an exception. *)
Lemma run_quick_scan_interrupted_at_once (w : world) (t0 : Z) :
  (QuickScan.run_quick_scan w (boot t0 (Some 0%nat))).1
  = Raise KeyboardInterrupt.
Proof. reflexivity. Qed.

(** C10: a Ctrl-C that arrives when the first of three files has been
    scanned.  The deep and the custom scan return their partial results
    with end time and duration set; the quick scan, which has no handler
    for [KeyboardInterrupt], raises it to its caller and leaves the end
    time unset. *)
Theorem quick_scan_interrupt_escapes :
  (let out := QuickScan.run_quick_scan tmp_world (boot 0 (Some 5%nat)) in
   out.1 = Raise KeyboardInterrupt
   /\ stats out.2 !! "files_scanned"%string = Some (VInt 1)
   /\ stats out.2 !! "end_time"%string = Some VNone)
  /\ match (DeepScan.run_deep_scan tmp_world (boot 0 (Some 7%nat))).1 with
     | Ok (verdicts, statistics) =>
         statistics !! "files_scanned"%string = Some (VInt 1)
         /\ statistics !! "end_time"%string = Some (VTime 2)
         /\ statistics !! "duration"%string = Some (VTime 3)
     | Raise _ => False
     end
  /\ match (CustomScan.run_custom_scan tmp_world "/tmp/"
              (boot 0 (Some 2%nat))).1 with
     | Ok (verdicts, statistics) =>
         statistics !! "files_scanned"%string = Some (VInt 1)
         /\ statistics !! "end_time"%string = Some (VTime 2)
         /\ statistics !! "duration"%string = Some (VTime 3)
     | Raise _ => False
     end.
Proof. vm_compute. repeat split; reflexivity. Qed.

End Interrupt.

(* ===================================================================== *)
(** * Part III: further properties of the code                           *)
(* ===================================================================== *)

(** ** More on the score aggregator *)

Section RiskScoreMore.
Import AdvancedDetection.

Lemma risk_score_formula (findings : list pattern_match) :
  _calculate_risk_score findings
  = Z.min 100 (Spec.sum_severities findings * 10).
Proof.
  destruct findings as [|f l]; [reflexivity|].
  unfold _calculate_risk_score. now rewrite py_sum_severities.
Qed.

Lemma sum_severities_app (l1 l2 : list pattern_match) :
  Spec.sum_severities (l1 ++ l2)
  = Spec.sum_severities l1 + Spec.sum_severities l2.
Proof. induction l1 as [|f l IH]; simpl; [reflexivity | rewrite IH; lia]. Qed.

Lemma sum_severities_perm (l1 l2 : list pattern_match) :
  Permutation l1 l2 -> Spec.sum_severities l1 = Spec.sum_severities l2.
Proof. induction 1; simpl; lia. Qed.

Lemma sum_severities_nonneg (l : list pattern_match) :
  Forall (fun f => 0 <= m_severity f) l -> 0 <= Spec.sum_severities l.
Proof. induction 1; simpl; lia. Qed.

(** X1: the score does not depend on the order in which the findings
    arrive. *)
Theorem risk_score_order_independent
        (findings findings' : list pattern_match) :
  Permutation findings findings' ->
  _calculate_risk_score findings = _calculate_risk_score findings'.
Proof.
  intros H. rewrite !risk_score_formula.
  now rewrite (sum_severities_perm _ _ H).
Qed.

Lemma risk_score_order_independent_witness :
  _calculate_risk_score
    (_match_behavior_patterns ["keylogging"; "self_copying"]%string)
  = _calculate_risk_score
      (rev (_match_behavior_patterns ["keylogging"; "self_copying"]%string)).
Proof.
  apply risk_score_order_independent. apply Permutation_rev.
Defined.

(** X2: the score never exceeds 100; when no severity is negative it is
    never below 0, and further findings of non-negative severity never
    lower it. *)
Theorem risk_score_bounded_and_monotone :
  (forall findings, _calculate_risk_score findings <= 100)
  /\ (forall findings,
         Forall (fun f => 0 <= m_severity f) findings ->
         0 <= _calculate_risk_score findings)
  /\ (forall findings more,
         Forall (fun f => 0 <= m_severity f) more ->
         _calculate_risk_score findings
         <= _calculate_risk_score (findings ++ more)).
Proof.
  split; [|split].
  - intros l. rewrite risk_score_formula. lia.
  - intros l Hl. rewrite risk_score_formula.
    pose proof (sum_severities_nonneg l Hl). lia.
  - intros l more Hmore. rewrite !risk_score_formula, sum_severities_app.
    pose proof (sum_severities_nonneg more Hmore). lia.
Qed.

(** A negative severity, which nothing in the code rules out, gives a
    negative score: only the upper end is capped. *)
Example risk_score_can_be_negative :
  _calculate_risk_score
    [ {| m_pattern := "p"; m_category := "adware"; m_severity := -3;
         m_description := "" |} ] = -30.
Proof. reflexivity. Qed.

(** The dict [_match_behavior_patterns] builds for a pattern. *)
Lemma match_behavior_patterns_spec (behaviors : list string)
      (m : pattern_match) :
  In m (_match_behavior_patterns behaviors)
  <-> exists p,
        In p behavior_patterns
        /\ (exists i, In i (indicators p) /\ In i behaviors)
        /\ m = Spec.matched p.
Proof.
  unfold _match_behavior_patterns. rewrite in_flat_map. split.
  - intros [p [Hp Hm]].
    destruct (existsb _ _) eqn:E; [|contradiction].
    destruct Hm as [<- | []].
    apply existsb_exists in E as [i [Hi Hb]].
    exists p. split; [exact Hp|]. split; [|reflexivity].
    exists i. split; [exact Hi|]. now apply in_list_In.
  - intros (p & Hp & (i & Hi & Hb) & ->).
    exists p. split; [exact Hp|].
    assert (E : existsb (fun i => PyStr.in_list i behaviors) (indicators p)
                = true).
    { apply existsb_exists. exists i. split; [exact Hi|].
      now apply in_list_In. }
    rewrite E. now left.
Qed.

Lemma table_severities :
  Forall (fun p => 6 <= severity p <= 9) behavior_patterns.
Proof. repeat constructor; simpl; lia. Qed.

Lemma matches_severities (behaviors : list string) :
  Forall (fun m => 6 <= m_severity m <= 9)
         (_match_behavior_patterns behaviors).
Proof.
  apply List.Forall_forall. intros m Hm.
  apply match_behavior_patterns_spec in Hm as (p & Hp & _ & ->).
  pose proof table_severities as H. rewrite List.Forall_forall in H.
  apply (H p Hp).
Qed.

Lemma sum_severities_at_least (l : list pattern_match) :
  Forall (fun m => 6 <= m_severity m <= 9) l ->
  6 * Z.of_nat (length l) <= Spec.sum_severities l.
Proof. induction 1; simpl length; simpl Spec.sum_severities; lia. Qed.

Lemma two_members {A} (x y : A) (l : list A) :
  In x l -> In y l -> x <> y -> (2 <= length l)%nat.
Proof.
  destruct l as [|a [|b l]]; simpl; intros Hx Hy Hne.
  - contradiction.
  - destruct Hx as [<- | []], Hy as [<- | []]. contradiction.
  - lia.
Qed.

Lemma table_names_differ (p q : BehaviorPattern) :
  In p behavior_patterns -> In q behavior_patterns -> p <> q ->
  name p <> name q.
Proof.
  intros Hp Hq Hne. simpl in Hp, Hq.
  repeat (destruct Hp as [<- | Hp]);
    repeat (destruct Hq as [<- | Hq]);
    try contradiction; try (simpl; discriminate).
Qed.

(** X3: with the patterns of the engine, one observed indicator of a
    pattern already gives a score of at least 60, and indicators of two
    different patterns saturate the score at 100; with no indicator of any
    pattern the score is 0. *)
Theorem risk_score_of_behaviours (behaviors : list string) :
  let risk := _calculate_risk_score (_match_behavior_patterns behaviors) in
  ((forall p i, In p behavior_patterns -> In i (indicators p) ->
                ~ In i behaviors) ->
   risk = 0)
  /\ (forall p i, In p behavior_patterns -> In i (indicators p) ->
                  In i behaviors -> 60 <= risk <= 100)
  /\ (forall p q i j,
         In p behavior_patterns -> In q behavior_patterns -> p <> q ->
         In i (indicators p) -> In i behaviors ->
         In j (indicators q) -> In j behaviors ->
         risk = 100).
Proof.
  intros risk. subst risk.
  pose proof (matches_severities behaviors) as Hsev.
  pose proof (sum_severities_at_least _ Hsev) as Hsum.
  split; [|split].
  - intros Hnone.
    destruct (_match_behavior_patterns behaviors) as [|m l] eqn:E;
      [reflexivity|].
    assert (Hm : In m (_match_behavior_patterns behaviors))
      by (rewrite E; now left).
    apply match_behavior_patterns_spec in Hm as (p & Hp & (i & Hi & Hb) & _).
    exfalso. exact (Hnone p i Hp Hi Hb).
  - intros p i Hp Hi Hb.
    assert (Hm : In (Spec.matched p) (_match_behavior_patterns behaviors)).
    { apply match_behavior_patterns_spec. exists p. eauto. }
    rewrite risk_score_formula.
    destruct (_match_behavior_patterns behaviors) as [|m l];
      [contradiction|].
    simpl length in Hsum. lia.
  - intros p q i j Hp Hq Hne Hi Hbi Hj Hbj.
    assert (Hmp : In (Spec.matched p) (_match_behavior_patterns behaviors)).
    { apply match_behavior_patterns_spec. exists p. eauto. }
    assert (Hmq : In (Spec.matched q) (_match_behavior_patterns behaviors)).
    { apply match_behavior_patterns_spec. exists q. eauto. }
    assert (Hlen : (2 <= length (_match_behavior_patterns behaviors))%nat).
    { apply (two_members _ _ _ Hmp Hmq).
      intros Heq. apply (table_names_differ p q Hp Hq Hne).
      now apply (f_equal m_pattern) in Heq. }
    rewrite risk_score_formula. lia.
Qed.

Example risk_score_of_two_patterns :
  _calculate_risk_score
    (_match_behavior_patterns ["unwanted_popups"; "hidden_process"]%string)
  = 100.
Proof. reflexivity. Qed.

Lemma matches_sum_monotone (table : list BehaviorPattern)
      (behaviors behaviors' : list string) :
  Forall (fun p => 6 <= severity p <= 9) table ->
  (forall i, In i behaviors -> In i behaviors') ->
  Spec.sum_severities
    (flat_map (fun p =>
                 if existsb (fun i => PyStr.in_list i behaviors) (indicators p)
                 then [Spec.matched p] else []) table)
  <= Spec.sum_severities
       (flat_map (fun p =>
                    if existsb (fun i => PyStr.in_list i behaviors')
                               (indicators p)
                    then [Spec.matched p] else []) table).
Proof.
  intros Hsev Hsub. induction Hsev as [|p table Hp Hrest IH]; simpl; [lia|].
  rewrite !sum_severities_app.
  destruct (existsb (fun i => PyStr.in_list i behaviors) (indicators p))
    eqn:E.
  - assert (E' : existsb (fun i => PyStr.in_list i behaviors')
                         (indicators p) = true).
    { apply existsb_exists in E as [i [Hi Hb]].
      apply existsb_exists. exists i. split; [exact Hi|].
      apply in_list_In. apply Hsub. now apply in_list_In. }
    rewrite E'. lia.
  - destruct (existsb (fun i => PyStr.in_list i behaviors') (indicators p));
      cbn [Spec.sum_severities fold_right Spec.matched m_severity]; lia.
Qed.

(** X4: observing more behaviours never lowers the risk score. *)
Theorem risk_score_monotone_in_behaviours
        (behaviors behaviors' : list string) :
  (forall i, In i behaviors -> In i behaviors') ->
  _calculate_risk_score (_match_behavior_patterns behaviors)
  <= _calculate_risk_score (_match_behavior_patterns behaviors').
Proof.
  intros Hsub. rewrite !risk_score_formula.
  pose proof (matches_sum_monotone behavior_patterns behaviors behaviors'
                table_severities Hsub) as H.
  change (Spec.sum_severities (_match_behavior_patterns behaviors)
          <= Spec.sum_severities (_match_behavior_patterns behaviors')) in H.
  lia.
Qed.

Lemma risk_score_monotone_in_behaviours_witness :
  _calculate_risk_score (_match_behavior_patterns ["keylogging"]%string)
  <= _calculate_risk_score
       (_match_behavior_patterns ["self_copying"; "keylogging"]%string).
Proof.
  apply risk_score_monotone_in_behaviours.
  intros i [<- | []]. right. left. reflexivity.
Defined.

End RiskScoreMore.

(** ** The AI detector: which checks give which verdict *)

Section AIChecks.
Import AIDetection.
#[local] Open Scope float_scope.

Lemma find_existsb {A} (f : A -> bool) (l : list A) :
  existsb f l = match List.find f l with Some _ => true | None => false end.
Proof.
  induction l as [|x l IH]; simpl; [reflexivity|].
  destruct (f x); [reflexivity | exact IH].
Qed.

Lemma accumulate_score (unicode_lower : string -> string) (feats : features)
      (file_path : string) :
  (accumulate unicode_lower feats file_path).1
  = let s0 := 0.0 in
    let s1 := if Spec.high_entropy feats then s0 + 0.3 else s0 in
    let s2 := if Spec.small_executable feats then s1 + 0.4 else s1 in
    if Spec.suspicious_name unicode_lower file_path then s2 + 0.5 else s2.
Proof.
  unfold accumulate, Spec.high_entropy, Spec.small_executable,
    Spec.suspicious_name.
  rewrite find_existsb.
  destruct (7.0 <? _); destruct (_ && _)%bool; destruct (List.find _ _);
    reflexivity.
Qed.

(** X6: the verdict of [_analyze_features] in terms of its three checks.
    A file is 'malicious' exactly when its name is suspicious and one of
    the other two checks fires as well; a suspicious name alone, a small
    executable alone, or a small executable of high entropy is
    'suspicious' (0.3 + 0.4 stays below the threshold of 0.75); high
    entropy alone is 'benign'.  The cap of the score at 1.0 is reached
    only when all three checks fire. *)
Theorem ai_verdict_by_checks :
  forall (unicode_lower : string -> string) (now : Z) (feats : features)
         (file_path : string),
    let r := _analyze_features unicode_lower now feats file_path in
    let entropy := Spec.high_entropy feats in
    let small := Spec.small_executable feats in
    let named := Spec.suspicious_name unicode_lower file_path in
    (classification r = "malicious"%string
     <-> named && (entropy || small) = true)
    /\ (classification r = "suspicious"%string
        <-> (named && negb entropy && negb small) || (negb named && small)
            = true)
    /\ (classification r = "benign"%string
        <-> negb named && negb small = true)
    /\ ((score r =? 1.0) = true <-> entropy && small && named = true).
Proof.
  intros unicode_lower now feats file_path r entropy small named.
  assert (Hr : classification r
               = classify (accumulate unicode_lower feats file_path).1
               /\ score r
                  = py_min (accumulate unicode_lower feats file_path).1 1.0).
  { unfold r, _analyze_features.
    destruct (accumulate unicode_lower feats file_path) as [ts dt].
    now simpl. }
  destruct Hr as [-> ->]. rewrite accumulate_score.
  fold entropy small named. clearbody entropy small named. clear r.
  destruct entropy, small, named; vm_compute;
    repeat split; intros; try reflexivity; try discriminate.
Qed.

End AIChecks.

(** ** The deep scan's heuristics *)

Section DeepHeuristics.
Import Py Fs DeepScan Spec Scenarios.

#[local] Arguments report : simpl never.
#[local] Arguments PyStr.in_list : simpl never.
#[local] Arguments Z.mul : simpl never.
#[local] Arguments Z.ltb : simpl never.

Lemma contains_empty (hay : string) : PyStr.contains "" hay = true.
Proof. destruct hay; reflexivity. Qed.

(** X7: when TEMP or APPDATA is not set in the environment, the list of
    suspicious locations holds the empty string, which is part of every
    directory name: [_perform_heuristic_analysis] then flags every path. *)
Theorem heuristics_flag_everything_without_TEMP
        (w : world) (file_path : string) :
  environ w !! "TEMP"%string = None \/ environ w !! "APPDATA"%string = None ->
  _perform_heuristic_analysis w file_path = true.
Proof.
  intros Hunset. unfold _perform_heuristic_analysis.
  destruct (existsb _ _); [reflexivity|].
  unfold environ_get.
  destruct Hunset as [-> | ->]; cbn [default existsb].
  - change (OsPath.join "" "") with ""%string.
    now rewrite contains_empty.
  - change (OsPath.join "" "") with ""%string.
    rewrite contains_empty. now rewrite orb_true_r.
Qed.

Lemma heuristics_flag_everything_without_TEMP_witness :
  _perform_heuristic_analysis empty_world "/home/user/notes.txt" = true.
Proof.
  apply heuristics_flag_everything_without_TEMP. left. reflexivity.
Defined.

(** With both variables set, a file is flagged by its location only when
    it lies below one of the two directories, not directly in it: the
    locations end in a separator, the directory name of the file does
    not. *)
Example heuristics_location :
  let w := {| environ := {[ "TEMP"%string := "/tmp"%string;
                            "APPDATA"%string := "/appdata"%string ]};
              root := fun _ => None;
              unicode_lower := fun s => s; console := fun _ => None |} in
  _perform_heuristic_analysis w "/tmp/setup.bin" = false
  /\ _perform_heuristic_analysis w "/tmp/cache/setup.bin" = true
  /\ _perform_heuristic_analysis w "/home/user/setup.bin" = false.
Proof. vm_compute. repeat split; reflexivity. Qed.

(** X8: whatever the file, the deep scan's [_analyze_file] returns
    normally, never appends anything but a 'malicious' verdict, and leaves
    the count of suspicious files alone: by the [NameError] of its
    reference to [self], no file is ever reported as suspicious. *)
Theorem deep_analysis_never_reports_suspicious
        (w : world) (file_path : string) (f : file_info) (s : state)
        (a b c e : Z) :
  deep_counters s a b c e ->
  let out := _analyze_file w file_path (File f) s in
  out.1 = Ok tt
  /\ stats out.2 !! "suspicious_files"%string = Some (VInt b)
  /\ (results out.2 = results s
      \/ exists verdict,
           results out.2 = results s ++ [verdict]
           /\ verdict !! "status"%string = Some (VStr "malicious")).
Proof.
  intros Hc out. subst out.
  destruct Hc as [(Hsig & Ha & Hb & He) Hct].
  destruct (size f) as [sz|] eqn:Hsz.
  - destruct (Z.le_gt_cases sz (100 * 1024 * 1024)) as [Hsmall | Hbig].
    + destruct (List.in_dec String.string_dec (computed_md5 f)
                            KNOWN_MALWARE_HASHES) as [Hin | Hin].
      * rewrite (deep_body_known w file_path f sz c s Hsz Hsmall Hin Hct).
        split; [reflexivity|]. split; [by simplify_map_eq|].
        right. eexists. split; [reflexivity|]. reflexivity.
      * pose proof (deep_body_unknown w file_path f sz s Hsz Hsmall Hin)
          as Hbody.
        unfold _analyze_file.
        rewrite (try_caught _ (stats_incr "errors") _ _ _ _ Hbody)
          by reflexivity.
        rewrite (stats_incr_ok "errors" e) by exact He.
        split; [reflexivity|]. split; [by simplify_map_eq|].
        now left.
    + rewrite (deep_large_file_skipped w file_path f sz s Hsz) by lia.
      split; [reflexivity|]. split; [exact Hb | now left].
  - assert (Hbody : analyze_body w file_path (File f) s
                    = (Raise OSError,
                       set_trace (fun t => t ++ [Sized file_path]) s)).
    { unfold analyze_body, getsize, log, raise, bind. simpl.
      now rewrite Hsz. }
    unfold _analyze_file.
    rewrite (try_caught _ (stats_incr "errors") _ _ _ _ Hbody)
      by reflexivity.
    rewrite (stats_incr_ok "errors" e) by exact He.
    split; [reflexivity|]. split; [by simplify_map_eq | now left].
Qed.

Lemma deep_analysis_never_reports_suspicious_witness :
  let out := _analyze_file empty_world "/data/keygen.exe"
                           (File keygen_small) deep_start in
  out.1 = Ok tt
  /\ stats out.2 !! "suspicious_files"%string = Some (VInt 0)
  /\ (results out.2 = results deep_start
      \/ exists verdict,
           results out.2 = results deep_start ++ [verdict]
           /\ verdict !! "status"%string = Some (VStr "malicious")).
Proof.
  apply (deep_analysis_never_reports_suspicious
           empty_world "/data/keygen.exe" keygen_small deep_start 0 0 0 0).
  repeat split; reflexivity.
Defined.

End DeepHeuristics.

(** ** The quick scan: what a directory of files is reported as *)

Section QuickFlags.
Import Py Fs Spec Scenarios.

#[local] Arguments PyStr.in_list : simpl never.
#[local] Arguments PyStr.lower : simpl never.
#[local] Arguments OsPath.join : simpl never.
#[local] Arguments OsPath.splitext_ext : simpl never.
#[local] Arguments dict_of : simpl never.





Example quick_scan_flags_setup_exe :
  paths_of (results (QuickScan._scan_directory
                       empty_world "/home/user/Downloads"
                       (Dir (Some ten_files)) 2 0
                       (started (QuickScan.initial_stats 1) 2)).2)
  = [Some (VStr "/home/user/Downloads/setup.exe")].
Proof. vm_compute. reflexivity. Qed.

End QuickFlags.

(** ** The custom scan: what one file is reported as *)

Section CustomAnalysis.
Import Py Fs CustomScan Spec Scenarios.

#[local] Arguments report : simpl never.
#[local] Arguments reasons : simpl never.
#[local] Arguments PyStr.join : simpl never.
#[local] Arguments Z.mul : simpl never.
#[local] Arguments Z.ltb : simpl never.




Example custom_reasons_of_keygen :
  reasons empty_world 512 "/data/Keygen.EXE"
  = ["Unusually small executable";
     "Suspicious filename pattern: keygen"]%string.
Proof. reflexivity. Qed.

End CustomAnalysis.

(** ** The signature scanner: the verdict on one file *)

Section SignatureVerdict.
Import Py Fs SignatureDetection Spec Scenarios.

#[local] Arguments dict_of : simpl never.

(** X11: the signature scanner's verdict on a regular file, when the
    console accepts what is printed: the result carries the path it was
    given; its status is 'error' exactly when the file cannot be read,
    'infected' exactly when the file can be read and its MD5 digest is one
    of the signatures of the database, whose threat name the result then
    carries, and 'clean' in every other case. *)
Theorem signature_verdict_on_a_file
        (w : world) (file_path : string) (f : file_info) (s : state) :
  (forall k, console w k = None) ->
  md5_hex f <> ""%string ->
  exists result,
    (scan_file w file_path (File f) s).1 = Ok (Some result)
    /\ result !! "file_path"%string = Some (VStr file_path)
    /\ (result !! "status"%string = Some (VStr "error")
        <-> readable f = false)
    /\ (result !! "status"%string = Some (VStr "infected")
        <-> readable f = true /\ is_Some (signature_db !! md5_hex f))
    /\ (result !! "status"%string = Some (VStr "clean")
        <-> readable f = true /\ signature_db !! md5_hex f = None)
    /\ (forall threat,
           readable f = true -> signature_db !! md5_hex f = Some threat ->
           result !! "threat_name"%string = Some (VStr threat)).
Proof.
  intros Hquiet Hmd5.
  unfold scan_file, calculate_file_hash, read_md5, print, log, try_except,
    except_Exception, raise, bind, ret.
  simpl. destruct (readable f) eqn:Hread; simpl.
  - destruct (String.eqb_spec (md5_hex f) ""); [contradiction|].
    destruct (signature_db !! md5_hex f) as [threat|] eqn:Hdb; simpl.
    + eexists. split; [reflexivity|].
      split; [reflexivity|].
      split; [split; intros H; discriminate H|].
      split; [split; [intros _; split; [reflexivity | eauto]
                     | intros _; reflexivity]|].
      split; [split; [intros H; discriminate H
                     | intros [_ H]; discriminate H]|].
      intros threat' _ [= <-]. reflexivity.
    + eexists. split; [reflexivity|].
      split; [reflexivity|].
      split; [split; intros H; discriminate H|].
      split; [split; [intros H; discriminate H
                     | intros [_ [x Hx]]; discriminate Hx]|].
      split; [split; [intros _; split; reflexivity
                     | intros _; reflexivity]|].
      intros threat' _ H. discriminate H.
  - rewrite Hquiet. simpl.
    eexists. split; [reflexivity|].
    split; [reflexivity|].
    split; [split; intros _; reflexivity|].
    split; [split; [intros H; discriminate H
                   | intros [H _]; discriminate H]|].
    split; [split; [intros H; discriminate H
                   | intros [H _]; discriminate H]|].
    intros threat' H. discriminate H.
Qed.

Lemma signature_verdict_on_a_file_witness :
  exists result,
    (scan_file empty_world "/data/eicar.com"
       (File {| size := Some 68; readable := true;
                md5_hex := "44d88612fea8a8f36de82e1278abb02f";
                sha256_hex := "" |}) (boot 0 None)).1 = Ok (Some result)
    /\ result !! "status"%string = Some (VStr "infected")
    /\ result !! "threat_name"%string = Some (VStr "Trojan.Generic").
Proof.
  destruct (signature_verdict_on_a_file empty_world "/data/eicar.com"
              {| size := Some 68; readable := true;
                 md5_hex := "44d88612fea8a8f36de82e1278abb02f";
                 sha256_hex := "" |} (boot 0 None))
    as (result & Hrun & _ & _ & Hinfected & _ & Hname).
  - reflexivity.
  - discriminate.
  - exists result. split; [exact Hrun|]. split.
    + apply Hinfected. split; [reflexivity | eexists; reflexivity].
    + apply Hname; reflexivity.
Defined.

End SignatureVerdict.
